(** * Indian income-tax engine (tax_rules.py): calculator and savings advisor

    Shallow embedding of [calculate_tax] and [suggest_savings], of
    [calculate_from_list] (logic.py), which adds up the transactions they
    are fed with, and of the parts of [analyze_combined] (main.py) that
    take the manual entries in and build the tax report.

    Numbers.  The Python code computes on [int] and [float] values; here
    every amount is an exact rational ([Q]), so a literal such as [0.05]
    is the rational 5/100 and binary rounding error of floats is not
    part of the model.  [round] is Python 3's: to the nearest integer,
    ties to the even one.  Ages are integers ([Z]) and the regime is a
    string, as in the source.  Where the last bit of a double decides (how
    surcharge and cess are put together), [calculate_tax] is given a second
    time on binary64 doubles, in module [Double]. *)

From Stdlib Require Import ZArith QArith Qround Qminmax Lqa Lia List String Bool.
From Stdlib Require Import Sorted.
From Stdlib Require Import Floats.
Import ListNotations.

Set Warnings "-inexact-float".

Open Scope Q_scope.

(** ** Python primitives *)

Module Py.

(** [a < b] as a boolean test. *)
Definition ltb (a b : Q) : bool := negb (Qle_bool b a).

(** [a <= b] as a boolean test. *)
Definition leb (a b : Q) : bool := Qle_bool a b.

(** [max(a, b)]: the first argument unless the second is strictly greater. *)
Definition max (a b : Q) : Q := if ltb a b then b else a.

(** [min(a, b)]: the first argument unless the second is strictly smaller. *)
Definition min (a b : Q) : Q := if ltb b a then b else a.

(** [round(x)] with one argument: nearest integer, ties to even. *)
Definition round (x : Q) : Z :=
  let f := Qfloor x in
  let r := x - inject_Z f in
  if ltb r (1 # 2) then f
  else if ltb (1 # 2) r then (f + 1)%Z
  else if Z.even f then f else (f + 1)%Z.

End Py.

(** ** calculate_tax *)

(** Slab tax of the new regime (the [if]/[elif] chain on [slab_income]). *)
Definition new_slab_tax (slab_income : Q) : Q :=
  if Py.leb slab_income 400000 then 0
  else if Py.leb slab_income 800000 then (slab_income - 400000) * (5 # 100)
  else if Py.leb slab_income 1200000 then
    20000 + (slab_income - 800000) * (10 # 100)
  else if Py.leb slab_income 1600000 then
    20000 + 40000 + (slab_income - 1200000) * (15 # 100)
  else if Py.leb slab_income 2000000 then
    20000 + 40000 + 60000 + (slab_income - 1600000) * (20 # 100)
  else if Py.leb slab_income 2400000 then
    20000 + 40000 + 60000 + 80000 + (slab_income - 2000000) * (25 # 100)
  else
    20000 + 40000 + 60000 + 80000 + 100000 + (slab_income - 2400000) * (30 # 100).

(** Rebate u/s 87A and the simplified marginal relief of the new regime,
    applied to the slab tax [tax]. *)
Definition new_rebate (taxable_income tax : Q) : Q :=
  if Py.leb taxable_income 1200000 then 0
  else if Py.leb taxable_income 1275000 then
    Py.min tax (taxable_income - 1200000)
  else tax.

(** Taxable income of the new regime: only the standard deduction. *)
Definition new_taxable_income (gross_income : Q) : Q :=
  let std_deduction := 75000 in
  Py.max 0 (gross_income - std_deduction).

(** The [regime == "new"] branch: the pair (tax, taxable_income) it leaves. *)
Definition new_regime (gross_income : Q) : Q * Q :=
  let taxable_income := new_taxable_income gross_income in
  let slab_income := taxable_income in
  let tax := new_slab_tax slab_income in
  (new_rebate taxable_income tax, taxable_income).

(** The five capped deductions of the old regime. *)
Definition deduction_80c (investments_80c : Q) : Q :=
  Py.min investments_80c 150000.

Definition deduction_80d (age : Z) (medical_80d : Q) : Q :=
  Py.min medical_80d (if (age >=? 60)%Z then 50000 else 25000).

Definition deduction_nps (nps_80ccd_1b : Q) : Q :=
  Py.min nps_80ccd_1b 50000.

Definition deduction_home_loan (housing_loan_interest : Q) : Q :=
  Py.min housing_loan_interest 200000.

Definition limit_savings (age : Z) : Q :=
  if (age >=? 60)%Z then 50000 else 10000.

Definition deduction_savings (age : Z) (savings_interest : Q) : Q :=
  Py.min savings_interest (limit_savings age).

Definition total_deductions (age : Z)
    (investments_80c medical_80d housing_loan_interest
     nps_80ccd_1b savings_interest : Q) : Q :=
  let std_deduction := 50000 in
  std_deduction + deduction_80c investments_80c + deduction_80d age medical_80d
  + deduction_nps nps_80ccd_1b + deduction_home_loan housing_loan_interest
  + deduction_savings age savings_interest.

Definition basic_exemption (age : Z) : Q :=
  if (age >=? 80)%Z then 500000
  else if (age >=? 60)%Z then 300000
  else 250000.

(** Slab tax of the old regime, relative to the age-dependent exemption. *)
Definition old_slab_tax (basic_exemption slab_income : Q) : Q :=
  if Py.leb slab_income basic_exemption then 0
  else if Py.leb slab_income 500000 then
    (slab_income - basic_exemption) * (5 # 100)
  else if Py.leb slab_income 1000000 then
    (500000 - basic_exemption) * (5 # 100) + (slab_income - 500000) * (20 # 100)
  else
    (500000 - basic_exemption) * (5 # 100) + 100000
    + (slab_income - 1000000) * (30 # 100).

(** Rebate u/s 87A of the old regime. *)
Definition old_rebate (taxable_income tax : Q) : Q :=
  if Py.leb taxable_income 500000 then 0 else tax.

Definition old_taxable_income (gross_income : Q) (age : Z)
    (investments_80c medical_80d housing_loan_interest
     nps_80ccd_1b savings_interest : Q) : Q :=
  Py.max 0 (gross_income
            - total_deductions age investments_80c medical_80d
                housing_loan_interest nps_80ccd_1b savings_interest).

(** The [regime == "old"] branch: the pair (tax, taxable_income) it leaves. *)
Definition old_regime (gross_income : Q) (age : Z)
    (investments_80c medical_80d housing_loan_interest
     nps_80ccd_1b savings_interest : Q) : Q * Q :=
  let taxable_income :=
    old_taxable_income gross_income age investments_80c medical_80d
      housing_loan_interest nps_80ccd_1b savings_interest in
  let slab_income := taxable_income in
  let tax := old_slab_tax (basic_exemption age) slab_income in
  (old_rebate taxable_income tax, taxable_income).

(** The regime dispatch.  [tax] and [taxable_income] start at 0 and stay
    there when the regime string is neither ["new"] nor ["old"]. *)
Definition base_tax_and_income (gross_income : Q) (age : Z)
    (investments_80c medical_80d housing_loan_interest
     nps_80ccd_1b savings_interest : Q) (regime : string) : Q * Q :=
  if (regime =? "new")%string then new_regime gross_income
  else if (regime =? "old")%string then
    old_regime gross_income age investments_80c medical_80d
      housing_loan_interest nps_80ccd_1b savings_interest
  else (0, 0).

(** Surcharge rate, keyed on taxable income. *)
Definition surcharge_rate (regime : string) (taxable_income : Q) : Q :=
  if Py.ltb 5000000 taxable_income then
    if Py.leb taxable_income 10000000 then 10 # 100
    else if Py.leb taxable_income 20000000 then 15 # 100
    else if (regime =? "new")%string || Py.leb taxable_income 50000000 then
      25 # 100
    else 37 # 100
  else 0.

(** Surcharge, cess and the final rounding ([surcharge], [total_tax],
    [cess] and the returned value of the source). *)
Definition surcharge_of (tax rate : Q) : Q := tax * rate.

Definition total_tax_of (tax rate : Q) : Q := tax + surcharge_of tax rate.

Definition cess_of (total_tax : Q) : Q := total_tax * (4 # 100).

Definition tax_with_surcharge_and_cess (tax rate : Q) : Q :=
  let total_tax := total_tax_of tax rate in
  total_tax + cess_of total_tax.

Definition calculate_tax (gross_income : Q) (age : Z)
    (investments_80c medical_80d housing_loan_interest
     nps_80ccd_1b savings_interest : Q) (regime : string) : Z :=
  let '(tax, taxable_income) :=
    base_tax_and_income gross_income age investments_80c medical_80d
      housing_loan_interest nps_80ccd_1b savings_interest regime in
  Py.round (tax_with_surcharge_and_cess tax
              (surcharge_rate regime taxable_income)).

(** The base tax and the taxable income a call works with. *)
Definition base_tax (gross_income : Q) (age : Z)
    (investments_80c medical_80d housing_loan_interest
     nps_80ccd_1b savings_interest : Q) (regime : string) : Q :=
  fst (base_tax_and_income gross_income age investments_80c medical_80d
         housing_loan_interest nps_80ccd_1b savings_interest regime).

Definition taxable_income_of (gross_income : Q) (age : Z)
    (investments_80c medical_80d housing_loan_interest
     nps_80ccd_1b savings_interest : Q) (regime : string) : Q :=
  snd (base_tax_and_income gross_income age investments_80c medical_80d
         housing_loan_interest nps_80ccd_1b savings_interest regime).

(** The value handed to [round], as a function of what the regime branch
    leaves in [tax] and [taxable_income]. *)
Definition final_amount (regime : string) (p : Q * Q) : Q :=
  tax_with_surcharge_and_cess (fst p) (surcharge_rate regime (snd p)).

(** Order on the pairs (tax, taxable_income): both components grow and the
    smaller tax is non-negative. *)
Definition pair_le (p q : Q * Q) : Prop :=
  0 <= fst p /\ fst p <= fst q /\ snd p <= snd q.

(** An input [x'] stands for [x] under a cap when it is the same value or
    when both are at or above the cap (so the cap, not the input, is what
    counts). *)
Definition same_under_cap (cap x x' : Q) : Prop :=
  x == x' \/ (cap <= x /\ cap <= x').

(** ** calculate_tax in the arithmetic of the source *)

(** The same function once more, on binary64 doubles: every [+], [-], [*]
    and comparison is the IEEE operation the interpreter performs, in the
    order the source writes them, and every decimal literal is the double
    nearest to it.  The arguments are doubles (main.py passes
    [float(...)]); age and regime are as before. *)
Module Double.

(** [max(a, b)] and [min(a, b)], with Python's comparisons. *)
Definition max (a b : float) : float := if (a <? b)%float then b else a.

Definition min (a b : float) : float := if (b <? a)%float then b else a.

(** The rational a finite double stands for; [None] for nan and the
    infinities. *)
Definition to_Q (x : float) : option Q :=
  match Prim2SF x with
  | S754_zero _ => Some 0
  | S754_finite s m e =>
      Some ((if s then -1 else 1) * inject_Z (Zpos m) * Qpower 2 e)
  | S754_infinity _ | S754_nan => None
  end.

(** [round(x)]: the integer nearest to the double, ties to even; [None]
    where Python raises ([ValueError] on nan, [OverflowError] on an
    infinity). *)
Definition round (x : float) : option Z := option_map Py.round (to_Q x).

Definition new_slab_tax (slab_income : float) : float :=
  (if slab_income <=? 400000 then 0
   else if slab_income <=? 800000 then (slab_income - 400000) * 0.05
   else if slab_income <=? 1200000 then
     20000 + (slab_income - 800000) * 0.10
   else if slab_income <=? 1600000 then
     20000 + 40000 + (slab_income - 1200000) * 0.15
   else if slab_income <=? 2000000 then
     20000 + 40000 + 60000 + (slab_income - 1600000) * 0.20
   else if slab_income <=? 2400000 then
     20000 + 40000 + 60000 + 80000 + (slab_income - 2000000) * 0.25
   else
     20000 + 40000 + 60000 + 80000 + 100000
     + (slab_income - 2400000) * 0.30)%float.

Definition new_rebate (taxable_income tax : float) : float :=
  (if taxable_income <=? 1200000 then 0
   else if taxable_income <=? 1275000 then
     min tax (taxable_income - 1200000)
   else tax)%float.

Definition new_taxable_income (gross_income : float) : float :=
  let std_deduction := 75000%float in
  max 0 (gross_income - std_deduction)%float.

Definition new_regime (gross_income : float) : float * float :=
  let taxable_income := new_taxable_income gross_income in
  let slab_income := taxable_income in
  let tax := new_slab_tax slab_income in
  (new_rebate taxable_income tax, taxable_income).

Definition total_deductions (age : Z)
    (investments_80c medical_80d housing_loan_interest
     nps_80ccd_1b savings_interest : float) : float :=
  let std_deduction := 50000%float in
  let deduction_80c := min investments_80c 150000 in
  let deduction_80d :=
    min medical_80d (if (age >=? 60)%Z then 50000 else 25000) in
  let deduction_nps := min nps_80ccd_1b 50000 in
  let deduction_home_loan := min housing_loan_interest 200000 in
  let limit_savings := (if (age >=? 60)%Z then 50000 else 10000)%float in
  let deduction_savings := min savings_interest limit_savings in
  (std_deduction + deduction_80c + deduction_80d
   + deduction_nps + deduction_home_loan + deduction_savings)%float.

Definition basic_exemption (age : Z) : float :=
  (if (age >=? 80)%Z then 500000
   else if (age >=? 60)%Z then 300000
   else 250000)%float.

Definition old_slab_tax (basic_exemption slab_income : float) : float :=
  (if slab_income <=? basic_exemption then 0
   else if slab_income <=? 500000 then
     (slab_income - basic_exemption) * 0.05
   else if slab_income <=? 1000000 then
     (500000 - basic_exemption) * 0.05 + (slab_income - 500000) * 0.20
   else
     (500000 - basic_exemption) * 0.05 + 100000
     + (slab_income - 1000000) * 0.30)%float.

Definition old_rebate (taxable_income tax : float) : float :=
  (if taxable_income <=? 500000 then 0 else tax)%float.

Definition old_taxable_income (gross_income : float) (age : Z)
    (investments_80c medical_80d housing_loan_interest
     nps_80ccd_1b savings_interest : float) : float :=
  max 0 (gross_income
         - total_deductions age investments_80c medical_80d
             housing_loan_interest nps_80ccd_1b savings_interest)%float.

Definition old_regime (gross_income : float) (age : Z)
    (investments_80c medical_80d housing_loan_interest
     nps_80ccd_1b savings_interest : float) : float * float :=
  let taxable_income :=
    old_taxable_income gross_income age investments_80c medical_80d
      housing_loan_interest nps_80ccd_1b savings_interest in
  let slab_income := taxable_income in
  let tax := old_slab_tax (basic_exemption age) slab_income in
  (old_rebate taxable_income tax, taxable_income).

(** The pair (tax, taxable_income) that the regime dispatch leaves. *)
Definition base_tax_and_income (gross_income : float) (age : Z)
    (investments_80c medical_80d housing_loan_interest
     nps_80ccd_1b savings_interest : float) (regime : string)
    : float * float :=
  if (regime =? "new")%string then new_regime gross_income
  else if (regime =? "old")%string then
    old_regime gross_income age investments_80c medical_80d
      housing_loan_interest nps_80ccd_1b savings_interest
  else (0%float, 0%float).

Definition surcharge_rate (regime : string) (taxable_income : float)
    : float :=
  (if 5000000 <? taxable_income then
     if taxable_income <=? 10000000 then 0.10
     else if taxable_income <=? 20000000 then 0.15
     else if ((regime =? "new")%string || (taxable_income <=? 50000000))%bool
     then 0.25
     else 0.37
   else 0)%float.

(** [None] stands for the exception of [round] on a result that is not
    finite. *)
Definition calculate_tax (gross_income : float) (age : Z)
    (investments_80c medical_80d housing_loan_interest
     nps_80ccd_1b savings_interest : float) (regime : string) : option Z :=
  let '(tax, taxable_income) :=
    base_tax_and_income gross_income age investments_80c medical_80d
      housing_loan_interest nps_80ccd_1b savings_interest regime in
  let surcharge_rate := surcharge_rate regime taxable_income in
  let surcharge := (tax * surcharge_rate)%float in
  let total_tax := (tax + surcharge)%float in
  let cess := (total_tax * 0.04)%float in
  round (total_tax + cess)%float.

Definition base_tax (gross_income : float) (age : Z)
    (investments_80c medical_80d housing_loan_interest
     nps_80ccd_1b savings_interest : float) (regime : string) : float :=
  fst (base_tax_and_income gross_income age investments_80c medical_80d
         housing_loan_interest nps_80ccd_1b savings_interest regime).

Definition taxable_income_of (gross_income : float) (age : Z)
    (investments_80c medical_80d housing_loan_interest
     nps_80ccd_1b savings_interest : float) (regime : string) : float :=
  snd (base_tax_and_income gross_income age investments_80c medical_80d
         housing_loan_interest nps_80ccd_1b savings_interest regime).


End Double.

(** ** suggest_savings *)

(** The [data] dictionary, restricted to the keys [suggest_savings] reads;
    a key that is absent is [None] and [get] supplies the default, as
    [data.get(key, default)] does. *)
Module Data.

Record t : Type := mk {
  total_income : option Q;
  age : option Z;
  investments_80c : option Q;
  medical_80d : option Q;
  regime : option string
}.

Definition get {A : Type} (field : option A) (default : A) : A :=
  match field with
  | Some v => v
  | None => default
  end.

End Data.

(** One entry of the returned list.  Each constructor stands for one of the
    seven message templates of the source, in the order they appear there,
    with the values its f-string interpolates ([other_regime], printed in
    upper case, and [savings]; the two [gap] amounts); the rendering of the
    text itself is not modelled. *)
Inductive advice : Type :=
| SwitchRegime (other_regime : string) (savings : Z)
| Invest80C (gap : Q)
| BuyHealthInsurance
| Increase80D (gap : Q)
| JustAboveLimit
| HighIncome
| AlreadyOptimized.

Section Advisor.

Variable data : Data.t.

Let income := Data.get (Data.total_income data) 0.
Let age := Data.get (Data.age data) 30%Z.
Let inv_80c := Data.get (Data.investments_80c data) 0.
Let med_80d := Data.get (Data.medical_80d data) 0.
Let regime := Data.get (Data.regime data) "new"%string.

Definition current_tax : Z :=
  calculate_tax income age
    (if (regime =? "old")%string then inv_80c else 0)
    (if (regime =? "old")%string then med_80d else 0)
    0 0 0 regime.

Definition other_regime : string :=
  if (regime =? "new")%string then "old"%string else "new"%string.

Definition other_tax : Z :=
  calculate_tax income age
    (if (other_regime =? "old")%string then inv_80c else 0)
    (if (other_regime =? "old")%string then med_80d else 0)
    0 0 0 other_regime.

(** Each step takes the list built so far and returns it, possibly with
    entries appended. *)
Definition regime_comparison (suggestions : list advice) : list advice :=
  if (other_tax <? current_tax)%Z then
    let savings := (current_tax - other_tax)%Z in
    suggestions ++ [SwitchRegime other_regime savings]
  else suggestions.

Definition old_regime_suggestions (suggestions : list advice) : list advice :=
  if (regime =? "old")%string then
    let suggestions :=
      if Py.ltb inv_80c 150000 then
        suggestions ++ [Invest80C (150000 - inv_80c)]
      else suggestions in
    if Qeq_bool med_80d 0 then suggestions ++ [BuyHealthInsurance]
    else if Py.ltb med_80d 25000 then
      suggestions ++ [Increase80D (25000 - med_80d)]
    else suggestions
  else suggestions.

Definition cliff_taxable : Q := Py.max 0 (income - 75000).

Definition new_regime_insights (suggestions : list advice) : list advice :=
  if (regime =? "new")%string then
    let taxable := cliff_taxable in
    if Py.ltb 1200000 taxable && Py.leb taxable 1300000 then
      suggestions ++ [JustAboveLimit]
    else suggestions
  else suggestions.

Definition general_insights (suggestions : list advice) : list advice :=
  if Py.ltb 1500000 income then suggestions ++ [HighIncome]
  else suggestions.

Definition fallback (suggestions : list advice) : list advice :=
  match suggestions with
  | [] => suggestions ++ [AlreadyOptimized]
  | _ :: _ => suggestions
  end.

(** The list as it stands when the [if not suggestions] test is reached. *)
Definition suggestions_before_fallback : list advice :=
  general_insights
    (new_regime_insights
       (old_regime_suggestions
          (regime_comparison []))).

Definition suggest_savings : list advice :=
  fallback suggestions_before_fallback.

End Advisor.

(** Position of each kind of entry in the fixed order of the source. *)
Definition rank (a : advice) : nat :=
  match a with
  | SwitchRegime _ _ => 0
  | Invest80C _ => 1
  | BuyHealthInsurance => 2
  | Increase80D _ => 2
  | JustAboveLimit => 3
  | HighIncome => 4
  | AlreadyOptimized => 5
  end.

(** [before a b]: [a] belongs strictly earlier in that order than [b]. *)
Definition before (a b : advice) : Prop := (rank a < rank b)%nat.

(** ** logic.py: calculate_from_list *)

(** Strings are byte strings.  [lower] maps the ASCII capitals to small
    letters and leaves every other byte alone, which is [s.lower()] on
    ASCII text; [contains needle s] is [needle in s]. *)
Module PyStr.

Definition lower_ascii (c : Ascii.ascii) : Ascii.ascii :=
  let n := Ascii.nat_of_ascii c in
  if ((65 <=? n) && (n <=? 90))%nat then Ascii.ascii_of_nat (n + 32) else c.

Fixpoint lower (s : string) : string :=
  match s with
  | EmptyString => EmptyString
  | String c s' => String (lower_ascii c) (lower s')
  end.

Fixpoint contains (needle s : string) : bool :=
  String.prefix needle s
  || match s with
     | EmptyString => false
     | String _ s' => contains needle s'
     end.

End PyStr.

Module Logic.

(** A value as the JSON parser delivers it: an int, a float, a boolean, a
    string, or anything else ([None], a list, a dict). *)
Inductive value : Type :=
| VInt (z : Z)
| VNum (q : Q)
| VBool (b : bool)
| VStr (s : string)
| VOther.

(** The ints that [float] converts: those that round to a finite double,
    which are the ints strictly between -(2^1024 - 2^970) and
    2^1024 - 2^970.  On any other int (10**400 for one) Python raises
    [OverflowError]. *)
Definition fits_double (z : Z) : bool :=
  (Z.abs z <? 2 ^ 1024 - 2 ^ 970)%Z.

(** An element of [transactions]: something that is not a dict, or a dict
    seen through the three keys the function reads (an absent key is
    [None]). *)
Inductive transaction : Type :=
| NotDict
| Dict (amount type category : option value).

(** The [totals] dictionary with its four keys. *)
Record totals : Type := mk {
  total_income : Q;
  investments_80c : Q;
  medical_80d : Q;
  expenses : Q
}.

Definition zero : totals := mk 0 0 0 0.

Section CalculateFromList.

(** [float(s)] on a string: the number it denotes, or [None] where Python
    raises [ValueError]. *)
Variable float_of_string : string -> option Q.

(** [float(v)]; [None] stands for the exception raised ([OverflowError]
    on an int out of range, [ValueError] on a string, [TypeError] on the
    rest).  An int in range is taken at its exact value. *)
Definition float (v : value) : option Q :=
  match v with
  | VInt z => if fits_double z then Some (inject_Z z) else None
  | VNum q => Some q
  | VBool b => Some (if b then 1 else 0)
  | VStr s => float_of_string s
  | VOther => None
  end.

(** [v.lower()]; only strings have the method. *)
Definition lower_of (v : value) : option string :=
  match v with
  | VStr s => Some (PyStr.lower s)
  | _ => None
  end.

(** The three reads at the top of the [try] block, in order: [amt], [typ],
    [cat].  [None] when the element is not a dict or one of the reads
    raises, in which case the loop goes on to the next element. *)
Definition read (t : transaction) : option (Q * string * string) :=
  match t with
  | NotDict => None
  | Dict amount type category =>
      match float (Data.get amount (VInt 0)) with
      | None => None
      | Some amt =>
          match lower_of (Data.get type (VStr "")) with
          | None => None
          | Some typ =>
              match lower_of (Data.get category (VStr "")) with
              | None => None
              | Some cat => Some (amt, typ, cat)
              end
          end
      end
  end.

(** One turn of the loop. *)
Definition update (acc : totals) (t : transaction) : totals :=
  match read t with
  | None => acc
  | Some (amt, typ, cat) =>
      if PyStr.contains "credit" typ then
        mk (total_income acc + amt) (investments_80c acc) (medical_80d acc)
           (expenses acc)
      else if PyStr.contains "debit" typ then
        let acc :=
          mk (total_income acc) (investments_80c acc) (medical_80d acc)
             (expenses acc + amt) in
        if PyStr.contains "80c" cat || PyStr.contains "lic" cat
           || PyStr.contains "ppf" cat then
          mk (total_income acc) (investments_80c acc + amt) (medical_80d acc)
             (expenses acc)
        else if PyStr.contains "health" cat || PyStr.contains "medic" cat then
          mk (total_income acc) (investments_80c acc) (medical_80d acc + amt)
             (expenses acc)
        else acc
      else acc
  end.

(** [round(v, 2)]: to the nearest hundredth, ties to even. *)
Definition round2 (v : Q) : Q := Py.round (v * 100) # 100.

(** The dict comprehension of the [return]: every total rounded. *)
Definition rounded (acc : totals) : totals :=
  mk (round2 (total_income acc)) (round2 (investments_80c acc))
     (round2 (medical_80d acc)) (round2 (expenses acc)).

Definition calculate_from_list (transactions : list transaction) : totals :=
  let totals := zero in
  match transactions with
  | [] => totals
  | _ :: _ => rounded (fold_left update transactions totals)
  end.

(** What makes the loop pass over an element. *)
Inductive malformed : transaction -> Prop :=
| malformed_not_dict : malformed NotDict
| malformed_amount a ty c :
    float (Data.get a (VInt 0)) = None -> malformed (Dict a ty c)
| malformed_type a v c :
    (forall s, v <> VStr s) -> malformed (Dict a (Some v) c)
| malformed_category a ty v :
    (forall s, v <> VStr s) -> malformed (Dict a ty (Some v)).


End CalculateFromList.


(** Two results hold the same amounts. *)
Definition same (a b : totals) : Prop :=
  total_income a == total_income b /\
  investments_80c a == investments_80c b /\
  medical_80d a == medical_80d b /\
  expenses a == expenses b.

End Logic.

(** ** main.py: manual entries and tax report of analyze_combined *)

Module Main.

(** An element of [manual_list], the parsed [manual_entries] form field:
    something that is not a dict, or a dict seen through the three keys the
    handler reads. *)
Inductive entry : Type :=
| NotDict
| Dict (description amount category : option Logic.value).

(** A row the handler puts into [raw_transactions].  [description] and
    [category] hold the values that the two f-strings interpolate (the
    entry's description, and [cat], printed in upper case after "Manual-");
    the rendering of the text is not modelled. *)
Record txn : Type := mk_txn {
  description : option Logic.value;
  amount : Q;
  type : string;
  category : string;
  is_manual : bool
}.

(** The [ai_data] dictionary: the four totals and the list of rows, each
    key possibly absent. *)
Record ai_data : Type := mk {
  total_income : option Q;
  investments_80c : option Q;
  medical_80d : option Q;
  expenses : option Q;
  raw_transactions : option (list txn)
}.

(** The dictionary the handler starts from when no file is uploaded. *)
Definition base : ai_data := mk (Some 0) (Some 0) (Some 0) (Some 0) (Some []).

(** [cat == s] for a string literal [s]. *)
Definition is_str (cat : Logic.value) (s : string) : bool :=
  match cat with
  | Logic.VStr c => (c =? s)%string
  | _ => false
  end.

Section ManualEntries.

Variable float_of_string : string -> option Q.

(** The update of the totals for one entry. *)
Definition update_totals (d : ai_data) (cat : Logic.value) (amt : Q)
    : ai_data :=
  if is_str cat "income" then
    mk (Some (Data.get (total_income d) 0 + amt)) (investments_80c d)
       (medical_80d d) (expenses d) (raw_transactions d)
  else if is_str cat "80c" then
    mk (total_income d) (Some (Data.get (investments_80c d) 0 + amt))
       (medical_80d d) (Some (Data.get (expenses d) 0 + amt))
       (raw_transactions d)
  else if is_str cat "80d" then
    mk (total_income d) (investments_80c d)
       (Some (Data.get (medical_80d d) 0 + amt))
       (Some (Data.get (expenses d) 0 + amt)) (raw_transactions d)
  else if is_str cat "expense" then
    mk (total_income d) (investments_80c d) (medical_80d d)
       (Some (Data.get (expenses d) 0 + amt)) (raw_transactions d)
  else d.

(** One turn of the loop over [manual_list].  [None] stands for an
    exception, which the handler turns into the status 500 response:
    [entry.get] on something that is not a dict, [float] on a value it does
    not convert, [cat.upper()] on a category that is not a string. *)
Definition manual_entry (d : ai_data) (e : entry) : option ai_data :=
  match e with
  | NotDict => None
  | Dict description amount category =>
      match Logic.float float_of_string (Data.get amount (Logic.VInt 0)) with
      | None => None
      | Some amt =>
          let cat := Data.get category (Logic.VStr "") in
          let d := update_totals d cat amt in
          match cat with
          | Logic.VStr c =>
              let new_txn :=
                mk_txn description amt
                  (if (c =? "income")%string then "Credit" else "Debit")
                  c true in
              Some (mk (total_income d) (investments_80c d) (medical_80d d)
                      (expenses d)
                      (Some (new_txn :: Data.get (raw_transactions d) [])))
          | _ => None
          end
      end
  end.

Fixpoint manual_entries (d : ai_data) (manual_list : list entry)
    : option ai_data :=
  match manual_list with
  | [] => Some d
  | e :: rest =>
      match manual_entry d e with
      | None => None
      | Some d' => manual_entries d' rest
      end
  end.


(** The amount and the category of an entry the loop accepts. *)
Definition amount_of (e : entry) : Q :=
  match e with
  | NotDict => 0
  | Dict _ a _ =>
      Data.get (Logic.float float_of_string (Data.get a (Logic.VInt 0))) 0
  end.

Definition category_of (e : entry) : string :=
  match e with
  | Dict _ _ (Some (Logic.VStr c)) => c
  | _ => ""
  end.

Definition description_of (e : entry) : option Logic.value :=
  match e with
  | NotDict => None
  | Dict de _ _ => de
  end.

(** The row built for an entry. *)
Definition new_txn (e : entry) : txn :=
  mk_txn (description_of e) (amount_of e)
    (if (category_of e =? "income")%string then "Credit" else "Debit")
    (category_of e) true.

(** Amounts of the entries whose category is one of [cats], added to
    [start] in the order of the list. *)
Definition add_amounts (cats : list string) (start : Q) (l : list entry) : Q :=
  fold_left
    (fun acc e =>
       if existsb (String.eqb (category_of e)) cats then acc + amount_of e
       else acc)
    l start.

End ManualEntries.

(** Step 5 of the handler (and the summary of [download_report]). *)
Definition income (d : ai_data) : Q := Data.get (total_income d) 0.
Definition inv_80c (d : ai_data) : Q := Data.get (investments_80c d) 0.
Definition med_80d (d : ai_data) : Q := Data.get (medical_80d d) 0.

Definition tax_new (d : ai_data) : Z :=
  calculate_tax (income d) 30 0 0 0 0 0 "new".

Definition tax_old (d : ai_data) : Z :=
  calculate_tax (income d) 30 (inv_80c d) (med_80d d) 0 0 0 "old".

Definition diff (d : ai_data) : Z := Z.abs (tax_new d - tax_old d).

Definition rec (d : ai_data) : string :=
  if (tax_new d <? tax_old d)%Z then "New Regime" else "Old Regime".

(** What [suggest_savings] sees of [ai_data]: it has no 'age' and no
    'regime' key. *)
Definition profile (d : ai_data) : Data.t :=
  Data.mk (total_income d) None (investments_80c d) (medical_80d d) None.

(** An entry of [ca_suggestions]: the recommendation line, with the values
    it interpolates, or an entry of the advisor. *)
Inductive suggestion : Type :=
| Recommendation (rec : string) (diff : Z)
| Advice (a : advice).

Definition ca_suggestions (d : ai_data) : list suggestion :=
  let advice := map Advice (suggest_savings (profile d)) in
  Recommendation (rec d) (diff d) :: advice.

End Main.

(** * Properties *)

(** ** Comparisons, [max], [min] and [round] *)

Lemma leb_cases (a b : Q) :
  (a <= b /\ Py.leb a b = true) \/ (b < a /\ Py.leb a b = false).
Proof.
  unfold Py.leb. destruct (Qle_bool a b) eqn:E.
  - left. split; [now apply Qle_bool_iff | reflexivity].
  - right. split; [| reflexivity].
    apply Qnot_le_lt. intro H. apply Qle_bool_iff in H. congruence.
Qed.

Lemma ltb_cases (a b : Q) :
  (a < b /\ Py.ltb a b = true) \/ (b <= a /\ Py.ltb a b = false).
Proof.
  unfold Py.ltb. destruct (leb_cases b a) as [[H E] | [H E]];
    unfold Py.leb in E; rewrite E; simpl; auto.
Qed.

(** Case analysis on the first comparison left in the goal. *)
Ltac py_case :=
  match goal with
  | |- context [Py.leb ?a ?b] =>
      let H := fresh "H" in let E := fresh "E" in
      destruct (leb_cases a b) as [[H E] | [H E]]; rewrite E; clear E;
      simpl andb; simpl orb; cbv iota
  | |- context [Py.ltb ?a ?b] =>
      let H := fresh "H" in let E := fresh "E" in
      destruct (ltb_cases a b) as [[H E] | [H E]]; rewrite E; clear E;
      simpl andb; simpl orb; cbv iota
  end.

Ltac py_cases := repeat (py_case; try lra).

Lemma max_spec (a b : Q) :
  (a < b /\ Py.max a b = b) \/ (b <= a /\ Py.max a b = a).
Proof. unfold Py.max. destruct (ltb_cases a b) as [[H E] | [H E]]; rewrite E; auto. Qed.

Lemma min_spec (a b : Q) :
  (b < a /\ Py.min a b = b) \/ (a <= b /\ Py.min a b = a).
Proof. unfold Py.min. destruct (ltb_cases b a) as [[H E] | [H E]]; rewrite E; auto. Qed.

Lemma min_Qmin (a b : Q) : Py.min a b == Qmin a b.
Proof.
  destruct (min_spec a b) as [[H E] | [H E]]; rewrite E.
  - symmetry. apply Q.min_r. lra.
  - symmetry. apply Q.min_l. lra.
Qed.

Lemma max_le_compat (a b b' : Q) : b <= b' -> Py.max a b <= Py.max a b'.
Proof.
  intros H. destruct (max_spec a b) as [[? E] | [? E]];
    destruct (max_spec a b') as [[? E'] | [? E']]; rewrite E, E'; lra.
Qed.

Lemma max_nonneg (b : Q) : 0 <= Py.max 0 b.
Proof. destruct (max_spec 0 b) as [[? E] | [? E]]; rewrite E; lra. Qed.

Lemma min_le_compat_l (a a' b : Q) : a <= a' -> Py.min a b <= Py.min a' b.
Proof.
  intros H. destruct (min_spec a b) as [[? E] | [? E]];
    destruct (min_spec a' b) as [[? E'] | [? E']]; rewrite E, E'; lra.
Qed.

Lemma min_le_r (a b : Q) : Py.min a b <= b.
Proof. destruct (min_spec a b) as [[? E] | [? E]]; rewrite E; lra. Qed.

Lemma min_above (a a' b : Q) : b <= a -> b <= a' -> Py.min a b == Py.min a' b.
Proof.
  intros H H'. destruct (min_spec a b) as [[? E] | [? E]];
    destruct (min_spec a' b) as [[? E'] | [? E']]; rewrite E, E'; lra.
Qed.

Lemma round_bounds (x : Q) :
  (Qfloor x <= Py.round x <= Qfloor x + 1)%Z.
Proof.
  unfold Py.round.
  destruct (Py.ltb (x - inject_Z (Qfloor x)) (1 # 2)); [lia |].
  destruct (Py.ltb (1 # 2) (x - inject_Z (Qfloor x))); [lia |].
  destruct (Z.even (Qfloor x)); lia.
Qed.

(** Rounding is monotone. *)
Lemma round_le (x y : Q) : x <= y -> (Py.round x <= Py.round y)%Z.
Proof.
  intros Hxy.
  pose proof (Qfloor_resp_le _ _ Hxy) as Hf.
  destruct (Z.eq_dec (Qfloor x) (Qfloor y)) as [Heq | Hne].
  - unfold Py.round. rewrite Heq.
    generalize (inject_Z (Qfloor y)). intros c.
    py_cases; destruct (Z.even (Qfloor y)); lia.
  - pose proof (round_bounds x). pose proof (round_bounds y). lia.
Qed.

Lemma round_eq (x y : Q) : x == y -> Py.round x = Py.round y.
Proof.
  intros H. apply Z.le_antisymm; apply round_le; rewrite H; apply Qle_refl.
Qed.

Lemma round_inject_Z (n : Z) : Py.round (inject_Z n) = n.
Proof.
  unfold Py.round. rewrite Qfloor_Z.
  assert (H : inject_Z n - inject_Z n == 0) by ring.
  destruct (ltb_cases (inject_Z n - inject_Z n) (1 # 2)) as [[? E] | [? E]];
    rewrite E; [reflexivity | lra].
Qed.

Lemma round_zero (x : Q) : x == 0 -> Py.round x = 0%Z.
Proof. intros H. rewrite (round_eq _ _ H). reflexivity. Qed.

Example round_ties_to_even :
  Py.round (1 # 2) = 0%Z /\ Py.round (3 # 2) = 2%Z /\ Py.round (5 # 2) = 2%Z
  /\ Py.round (-3 # 2) = (-2)%Z /\ Py.round (7 # 3) = 2%Z.
Proof. repeat split. Qed.

(** ** Slabs, rebates and surcharge are monotone *)

Lemma new_slab_tax_nonneg (t : Q) : 0 <= new_slab_tax t.
Proof. unfold new_slab_tax. py_cases. Qed.

Lemma new_slab_tax_le (t1 t2 : Q) :
  t1 <= t2 -> new_slab_tax t1 <= new_slab_tax t2.
Proof. intros H. unfold new_slab_tax. py_cases. Qed.

Lemma new_rebate_nonneg (t tax : Q) : 0 <= tax -> 0 <= new_rebate t tax.
Proof. intros H. unfold new_rebate, Py.min. py_cases. Qed.

Lemma new_rebate_le (t1 t2 tax1 tax2 : Q) :
  t1 <= t2 -> 0 <= tax1 -> tax1 <= tax2 ->
  new_rebate t1 tax1 <= new_rebate t2 tax2.
Proof. intros Ht H0 Htax. unfold new_rebate, Py.min. py_cases. Qed.

Lemma basic_exemption_range (age : Z) :
  0 <= basic_exemption age /\ basic_exemption age <= 500000.
Proof.
  unfold basic_exemption.
  destruct (age >=? 80)%Z; [lra |]. destruct (age >=? 60)%Z; lra.
Qed.

Lemma old_slab_tax_nonneg (e t : Q) : e <= 500000 -> 0 <= old_slab_tax e t.
Proof. intros He. unfold old_slab_tax. py_cases. Qed.

Lemma old_slab_tax_le (e t1 t2 : Q) :
  e <= 500000 -> t1 <= t2 -> old_slab_tax e t1 <= old_slab_tax e t2.
Proof. intros He H. unfold old_slab_tax. py_cases. Qed.

Lemma old_rebate_nonneg (t tax : Q) : 0 <= tax -> 0 <= old_rebate t tax.
Proof. intros H. unfold old_rebate. py_cases. Qed.

Lemma old_rebate_le (t1 t2 tax1 tax2 : Q) :
  t1 <= t2 -> 0 <= tax1 -> tax1 <= tax2 ->
  old_rebate t1 tax1 <= old_rebate t2 tax2.
Proof. intros Ht H0 Htax. unfold old_rebate. py_cases. Qed.

Lemma surcharge_rate_nonneg (regime : string) (t : Q) :
  0 <= surcharge_rate regime t.
Proof.
  unfold surcharge_rate. destruct (regime =? "new")%string; simpl orb; py_cases.
Qed.

Lemma surcharge_rate_le (regime : string) (t1 t2 : Q) :
  t1 <= t2 -> surcharge_rate regime t1 <= surcharge_rate regime t2.
Proof.
  intros H. unfold surcharge_rate.
  destruct (regime =? "new")%string; simpl orb; py_cases.
Qed.

Lemma tax_with_surcharge_and_cess_le (tax1 tax2 r1 r2 : Q) :
  0 <= tax1 -> tax1 <= tax2 -> 0 <= r1 -> r1 <= r2 ->
  tax_with_surcharge_and_cess tax1 r1 <= tax_with_surcharge_and_cess tax2 r2.
Proof.
  intros H0 Ht Hr0 Hr.
  unfold tax_with_surcharge_and_cess, cess_of, total_tax_of, surcharge_of.
  assert (H1 : tax1 * r1 <= tax2 * r1) by (apply Qmult_le_compat_r; assumption).
  assert (H2 : tax2 * r1 <= tax2 * r2).
  { rewrite (Qmult_comm tax2 r1), (Qmult_comm tax2 r2).
    apply Qmult_le_compat_r; lra. }
  lra.
Qed.

Lemma calculate_tax_eq (g : Q) (age : Z) (c d h n s : Q) (regime : string) :
  calculate_tax g age c d h n s regime
  = Py.round (final_amount regime (base_tax_and_income g age c d h n s regime)).
Proof.
  unfold calculate_tax, final_amount.
  destruct (base_tax_and_income g age c d h n s regime); reflexivity.
Qed.

Lemma final_amount_le (regime : string) (p q : Q * Q) :
  pair_le p q -> final_amount regime p <= final_amount regime q.
Proof.
  intros (H0 & Ht & Hi). unfold final_amount.
  apply tax_with_surcharge_and_cess_le; auto.
  - apply surcharge_rate_nonneg.
  - now apply surcharge_rate_le.
Qed.

Lemma new_regime_le (t1 t2 : Q) :
  t1 <= t2 ->
  pair_le (new_rebate t1 (new_slab_tax t1), t1)
          (new_rebate t2 (new_slab_tax t2), t2).
Proof.
  intros H. unfold pair_le; simpl. repeat split; [| | assumption].
  - apply new_rebate_nonneg, new_slab_tax_nonneg.
  - apply new_rebate_le; [assumption | apply new_slab_tax_nonneg |].
    now apply new_slab_tax_le.
Qed.

Lemma old_regime_le (age : Z) (t1 t2 : Q) :
  t1 <= t2 ->
  pair_le (old_rebate t1 (old_slab_tax (basic_exemption age) t1), t1)
          (old_rebate t2 (old_slab_tax (basic_exemption age) t2), t2).
Proof.
  intros H. destruct (basic_exemption_range age) as [_ He].
  unfold pair_le; simpl. repeat split; [| | assumption].
  - now apply old_rebate_nonneg, old_slab_tax_nonneg.
  - apply old_rebate_le; [assumption | now apply old_slab_tax_nonneg |].
    now apply old_slab_tax_le.
Qed.

Lemma pair_le_antisym (regime : string) (p q : Q * Q) :
  pair_le p q -> pair_le q p ->
  Py.round (final_amount regime p) = Py.round (final_amount regime q).
Proof.
  intros H1 H2. apply Z.le_antisymm; apply round_le; now apply final_amount_le.
Qed.

(** Taxable income, hence the result, only depends on the rational value
    of the total of deductions. *)
Lemma old_result_total_deductions (g : Q) (age : Z) (c d h n s c' d' h' n' s' : Q) :
  total_deductions age c d h n s == total_deductions age c' d' h' n' s' ->
  calculate_tax g age c d h n s "old" = calculate_tax g age c' d' h' n' s' "old".
Proof.
  intros H. rewrite !calculate_tax_eq.
  unfold base_tax_and_income; simpl String.eqb; cbv iota.
  unfold old_regime, old_taxable_income.
  apply pair_le_antisym; apply old_regime_le; apply max_le_compat; lra.
Qed.

Lemma new_result_taxable (g g' : Q) (age age' : Z) (c d h n s c' d' h' n' s' : Q) :
  new_taxable_income g == new_taxable_income g' ->
  base_tax g age c d h n s "new" == base_tax g' age' c' d' h' n' s' "new" /\
  calculate_tax g age c d h n s "new" = calculate_tax g' age' c' d' h' n' s' "new".
Proof.
  intros H.
  assert (H1 : new_taxable_income g <= new_taxable_income g') by lra.
  assert (H2 : new_taxable_income g' <= new_taxable_income g) by lra.
  apply new_regime_le in H1, H2. split.
  - unfold base_tax, base_tax_and_income; simpl String.eqb; cbv iota.
    unfold new_regime, pair_le in *; simpl in *. lra.
  - rewrite !calculate_tax_eq.
    unfold base_tax_and_income; simpl String.eqb; cbv iota.
    now apply pair_le_antisym.
Qed.

(** ** The calculator *)

(** C1.  The worked old-regime example: gross income 1,200,000, age 30,
    80C 150,000 and 80D 25,000.  Deductions are 50,000 + 150,000 + 25,000 =
    225,000, taxable income is 975,000, the base tax 107,500, the surcharge
    0, the cess 4,300, and the value returned is 111,800. *)
Theorem old_regime_worked_example :
  let tax := base_tax 1200000 30 150000 25000 0 0 0 "old" in
  let taxable_income := taxable_income_of 1200000 30 150000 25000 0 0 0 "old" in
  let rate := surcharge_rate "old" taxable_income in
  total_deductions 30 150000 25000 0 0 0 == 50000 + 150000 + 25000 /\
  total_deductions 30 150000 25000 0 0 0 == 225000 /\
  taxable_income == 975000 /\
  tax == (500000 - 250000) * (5 # 100) + (975000 - 500000) * (20 # 100) /\
  tax == 107500 /\
  surcharge_of tax rate == 0 /\
  cess_of (total_tax_of tax rate) == 4300 /\
  calculate_tax 1200000 30 150000 25000 0 0 0 "old" = 111800%Z.
Proof. repeat split; vm_compute; reflexivity. Qed.

(** C2.  Full rebate under the new regime: for a non-negative gross income,
    taxable income max(0, gross - 75,000) is at most 1,200,000 exactly when
    gross income is at most 1,275,000, and then the result is 0 whatever the
    age and the deduction inputs. *)
Theorem new_regime_full_rebate (g : Q) (age : Z) (c d h n s : Q) :
  0 <= g ->
  (Py.max 0 (g - 75000) <= 1200000 <-> g <= 1275000) /\
  (Py.max 0 (g - 75000) <= 1200000 ->
   calculate_tax g age c d h n s "new" = 0%Z).
Proof.
  intros H0. split.
  - destruct (max_spec 0 (g - 75000)) as [[? E] | [? E]]; rewrite E;
      split; intros; lra.
  - intros Ht. rewrite calculate_tax_eq.
    unfold base_tax_and_income; simpl String.eqb; cbv iota.
    unfold new_regime, new_taxable_income.
    apply round_zero. unfold final_amount; simpl fst; simpl snd.
    unfold new_rebate.
    destruct (leb_cases (Py.max 0 (g - 75000)) 1200000) as [[? E] | [? E]];
      [| lra].
    rewrite E. unfold tax_with_surcharge_and_cess, cess_of, total_tax_of,
      surcharge_of. ring.
Qed.

Lemma new_regime_full_rebate_witness :
  0 <= 1275000 /\ Py.max 0 (1275000 - 75000) <= 1200000 /\
  calculate_tax 1275000 30 0 0 0 0 0 "new" = 0%Z.
Proof.
  assert (H0 : 0 <= 1275000) by (vm_compute; discriminate).
  assert (Ht : Py.max 0 (1275000 - 75000) <= 1200000)
    by (vm_compute; discriminate).
  split; [exact H0 |]. split; [exact Ht |].
  exact (proj2 (new_regime_full_rebate 1275000 30 0 0 0 0 0 H0) Ht).
Defined.

(** C3.  Marginal relief under the new regime.  With taxable income
    t = max(0, gross - 75,000): for 1,200,000 < t <= 1,275,000 the base tax
    is min(slab tax, t - 1,200,000); at t = 1,250,000 the base tax is 50,000
    and the value returned 52,000; above 1,275,000 the base tax is the slab
    tax. *)
Theorem new_regime_marginal_relief (g : Q) (age : Z) (c d h n s : Q) :
  let t := Py.max 0 (g - 75000) in
  (1200000 < t -> t <= 1275000 ->
   base_tax g age c d h n s "new" == Qmin (new_slab_tax t) (t - 1200000)) /\
  (t == 1250000 ->
   base_tax g age c d h n s "new" == 50000 /\
   calculate_tax g age c d h n s "new" = 52000%Z) /\
  (1275000 < t -> base_tax g age c d h n s "new" == new_slab_tax t).
Proof.
  intros t. split; [| split; [intros Ht; split |]].
  - intros Hlo Hhi.
    unfold base_tax, base_tax_and_income; simpl String.eqb; cbv iota.
    unfold new_regime, new_taxable_income; simpl fst. fold t.
    unfold new_rebate.
    destruct (leb_cases t 1200000) as [[? E] | [? E]]; [lra |]. rewrite E.
    destruct (leb_cases t 1275000) as [[? E'] | [? E']]; [| lra]. rewrite E'.
    apply min_Qmin.
  - assert (H : new_taxable_income g == new_taxable_income 1325000).
    { unfold new_taxable_income. fold t. rewrite Ht. vm_compute. reflexivity. }
    rewrite (proj1 (new_result_taxable g 1325000 age age c d h n s c d h n s H)).
    vm_compute. reflexivity.
  - assert (H : new_taxable_income g == new_taxable_income 1325000).
    { unfold new_taxable_income. fold t. rewrite Ht. vm_compute. reflexivity. }
    rewrite (proj2 (new_result_taxable g 1325000 age age c d h n s c d h n s H)).
    reflexivity.
  - intros Hlo.
    unfold base_tax, base_tax_and_income; simpl String.eqb; cbv iota.
    unfold new_regime, new_taxable_income; simpl fst. fold t.
    unfold new_rebate.
    destruct (leb_cases t 1200000) as [[? E] | [? E]]; [lra |]. rewrite E.
    destruct (leb_cases t 1275000) as [[? E'] | [? E']]; [lra |]. rewrite E'.
    reflexivity.
Qed.

Lemma new_regime_marginal_relief_witness :
  (base_tax 1325000 30 0 0 0 0 0 "new" == 50000 /\
   calculate_tax 1325000 30 0 0 0 0 0 "new" = 52000%Z) /\
  base_tax 1300000 30 0 0 0 0 0 "new"
  == Qmin (new_slab_tax (Py.max 0 (1300000 - 75000)))
          (Py.max 0 (1300000 - 75000) - 1200000) /\
  base_tax 1400000 30 0 0 0 0 0 "new"
  == new_slab_tax (Py.max 0 (1400000 - 75000)).
Proof.
  split; [| split].
  - apply (proj1 (proj2 (new_regime_marginal_relief 1325000 30 0 0 0 0 0))).
    vm_compute. reflexivity.
  - apply (proj1 (new_regime_marginal_relief 1300000 30 0 0 0 0 0)).
    + vm_compute. reflexivity.
    + vm_compute. discriminate.
  - apply (proj2 (proj2 (new_regime_marginal_relief 1400000 30 0 0 0 0 0))).
    vm_compute. reflexivity.
Defined.

(** ** Surcharge and cess in the arithmetic of the source *)









Example double_examples :
  Double.calculate_tax 1200000 30 150000 25000 0 0 0 "old" = Some 111800%Z /\
  Double.calculate_tax 1325000 30 0 0 0 0 0 "new" = Some 52000%Z /\
  Double.calculate_tax 5075000 30 0 0 0 0 0 "new" = Some 1123200%Z /\
  Double.calculate_tax 1200000 30 0 0 0 0 0 "NEW" = Some 0%Z /\
  Double.calculate_tax infinity 30 0 0 0 0 0 "new" = None.
Proof. repeat split; vm_compute; reflexivity. Qed.

(** C5.  Monotonicity in income: with regime, age and deduction inputs
    fixed, a larger non-negative gross income never gives a smaller tax. *)
Theorem tax_monotone_in_income
    (g1 g2 : Q) (age : Z) (c d h n s : Q) (regime : string) :
  0 <= g1 -> g1 <= g2 ->
  (calculate_tax g1 age c d h n s regime
   <= calculate_tax g2 age c d h n s regime)%Z.
Proof.
  intros _ H. rewrite !calculate_tax_eq. apply round_le, final_amount_le.
  unfold base_tax_and_income.
  destruct (regime =? "new")%string.
  - apply new_regime_le. unfold new_taxable_income.
    apply max_le_compat. lra.
  - destruct (regime =? "old")%string.
    + apply old_regime_le. unfold old_taxable_income.
      apply max_le_compat. lra.
    + unfold pair_le; simpl. lra.
Qed.

Lemma tax_monotone_in_income_witness :
  (calculate_tax 1275000 30 0 0 0 0 0 "new"
   <= calculate_tax 1275001 30 0 0 0 0 0 "new")%Z /\
  (calculate_tax 5050000 30 0 0 0 0 0 "old"
   <= calculate_tax 5050001 30 0 0 0 0 0 "old")%Z.
Proof.
  split.
  - apply tax_monotone_in_income; vm_compute; discriminate.
  - apply tax_monotone_in_income; vm_compute; discriminate.
Defined.

Lemma min_same_under_cap (cap x x' : Q) :
  same_under_cap cap x x' -> Py.min x cap == Py.min x' cap.
Proof.
  intros [H | [H H']].
  - assert (H1 := min_le_compat_l x x' cap).
    assert (H2 := min_le_compat_l x' x cap). lra.
  - now apply min_above.
Qed.

(** C6.  Clamping in the old regime.  Each deduction counts for at most its
    cap (80C 150,000; 80D 50,000 from age 60, else 25,000; NPS 50,000;
    home-loan interest 200,000; savings interest 50,000 from age 60, else
    10,000); replacing inputs that are at or above their cap by larger ones
    does not change the result; taxable income is never negative, and when
    the capped deductions reach the gross income the result is 0. *)
Theorem old_regime_clamping
    (g : Q) (age : Z) (c d h n s c' d' h' n' s' : Q) :
  same_under_cap 150000 c c' ->
  same_under_cap (if (age >=? 60)%Z then 50000 else 25000) d d' ->
  same_under_cap 200000 h h' ->
  same_under_cap 50000 n n' ->
  same_under_cap (if (age >=? 60)%Z then 50000 else 10000) s s' ->
  (deduction_80c c <= 150000 /\
   deduction_80d age d <= (if (age >=? 60)%Z then 50000 else 25000) /\
   deduction_nps n <= 50000 /\
   deduction_home_loan h <= 200000 /\
   deduction_savings age s <= (if (age >=? 60)%Z then 50000 else 10000)) /\
  calculate_tax g age c' d' h' n' s' "old"
  = calculate_tax g age c d h n s "old" /\
  0 <= taxable_income_of g age c d h n s "old" /\
  (g <= total_deductions age c d h n s ->
   taxable_income_of g age c d h n s "old" == 0 /\
   calculate_tax g age c d h n s "old" = 0%Z).
Proof.
  intros Hc Hd Hh Hn Hs.
  split; [| split; [| split]].
  - unfold deduction_80c, deduction_80d, deduction_nps, deduction_home_loan,
      deduction_savings, limit_savings.
    repeat split; apply min_le_r.
  - apply old_result_total_deductions. unfold total_deductions.
    apply min_same_under_cap in Hc, Hd, Hh, Hn, Hs.
    unfold deduction_80c, deduction_80d, deduction_nps, deduction_home_loan,
      deduction_savings, limit_savings.
    lra.
  - apply max_nonneg.
  - intros Hg.
    assert (Ht : old_taxable_income g age c d h n s == 0).
    { unfold old_taxable_income.
      destruct (max_spec 0 (g - total_deductions age c d h n s))
        as [[? E] | [? E]]; rewrite E; lra. }
    split; [exact Ht |].
    rewrite calculate_tax_eq.
    unfold base_tax_and_income; simpl String.eqb; cbv iota.
    unfold old_regime. apply round_zero.
    unfold final_amount; simpl fst; simpl snd. unfold old_rebate.
    destruct (leb_cases (old_taxable_income g age c d h n s) 500000)
      as [[? E] | [? E]]; [| lra].
    rewrite E. unfold tax_with_surcharge_and_cess, cess_of, total_tax_of,
      surcharge_of. ring.
Qed.

Lemma old_regime_clamping_witness :
  calculate_tax 1200000 65 900000 60000 250000 70000 55000 "old"
  = calculate_tax 1200000 65 150000 50000 200000 50000 50000 "old" /\
  calculate_tax 300000 30 150000 25000 200000 50000 10000 "old" = 0%Z.
Proof.
  split.
  - apply (old_regime_clamping 1200000 65
             150000 50000 200000 50000 50000 900000 60000 250000 70000 55000);
      right; split; vm_compute; discriminate.
  - apply (old_regime_clamping 300000 30
             150000 25000 200000 50000 10000 150000 25000 200000 50000 10000);
      try (left; reflexivity).
    vm_compute. discriminate.
Defined.

(** C7.  Under the new regime the five deduction inputs do not matter: two
    calls that differ only in them return the same value, and taxable income
    is max(0, gross - 75,000). *)
Theorem new_regime_ignores_deductions
    (g : Q) (age : Z) (c d h n s c' d' h' n' s' : Q) :
  calculate_tax g age c d h n s "new" = calculate_tax g age c' d' h' n' s' "new" /\
  taxable_income_of g age c d h n s "new" = Py.max 0 (g - 75000).
Proof. split; reflexivity. Qed.

(** C10.  A regime string other than "new" and "old" (the upper-case
    spellings included) makes the call return 0: tax and taxable income keep
    their initial 0, so surcharge and cess are 0 as well. *)
Theorem unrecognized_regime_zero
    (g : Q) (age : Z) (c d h n s : Q) (regime : string) :
  0 <= g -> 0 <= c -> 0 <= d -> 0 <= h -> 0 <= n -> 0 <= s ->
  regime <> "new"%string -> regime <> "old"%string ->
  base_tax g age c d h n s regime = 0 /\
  taxable_income_of g age c d h n s regime = 0 /\
  surcharge_rate regime 0 = 0 /\
  calculate_tax g age c d h n s regime = 0%Z /\
  calculate_tax g age c d h n s "NEW" = 0%Z /\
  calculate_tax g age c d h n s "OLD" = 0%Z.
Proof.
  intros _ _ _ _ _ _ Hnew Hold.
  apply String.eqb_neq in Hnew, Hold.
  unfold base_tax, taxable_income_of, calculate_tax, base_tax_and_income.
  rewrite Hnew, Hold.
  repeat split.
Qed.

Lemma unrecognized_regime_zero_witness :
  calculate_tax 1200000 30 150000 25000 0 0 0 "Old" = 0%Z.
Proof.
  apply (unrecognized_regime_zero 1200000 30 150000 25000 0 0 0 "Old");
    try (vm_compute; discriminate).
Defined.

(** ** The advisor *)

Lemma regime_comparison_app (data : Data.t) (l : list advice) :
  regime_comparison data l = l ++ regime_comparison data [].
Proof.
  unfold regime_comparison.
  destruct (other_tax data <? current_tax data)%Z;
    [reflexivity | now rewrite app_nil_r].
Qed.

Lemma old_regime_suggestions_app (data : Data.t) (l : list advice) :
  old_regime_suggestions data l = l ++ old_regime_suggestions data [].
Proof.
  unfold old_regime_suggestions.
  destruct (Data.get (Data.regime data) "new" =? "old")%string;
    [| now rewrite app_nil_r].
  destruct (Py.ltb (Data.get (Data.investments_80c data) 0) 150000);
    destruct (Qeq_bool (Data.get (Data.medical_80d data) 0) 0);
    try destruct (Py.ltb (Data.get (Data.medical_80d data) 0) 25000);
    simpl; rewrite <- ?app_assoc, ?app_nil_r; reflexivity.
Qed.

Lemma new_regime_insights_app (data : Data.t) (l : list advice) :
  new_regime_insights data l = l ++ new_regime_insights data [].
Proof.
  unfold new_regime_insights.
  destruct (Data.get (Data.regime data) "new" =? "new")%string;
    [| now rewrite app_nil_r].
  destruct (Py.ltb 1200000 (cliff_taxable data)
            && Py.leb (cliff_taxable data) 1300000);
    [reflexivity | now rewrite app_nil_r].
Qed.

Lemma general_insights_app (data : Data.t) (l : list advice) :
  general_insights data l = l ++ general_insights data [].
Proof.
  unfold general_insights.
  destruct (Py.ltb 1500000 (Data.get (Data.total_income data) 0));
    [reflexivity | now rewrite app_nil_r].
Qed.

(** The list before the fallback is the concatenation of what the four
    steps contribute, in the order of the source. *)
Lemma suggestions_before_fallback_app (data : Data.t) :
  suggestions_before_fallback data
  = regime_comparison data [] ++ old_regime_suggestions data []
    ++ new_regime_insights data [] ++ general_insights data [].
Proof.
  unfold suggestions_before_fallback.
  rewrite general_insights_app, new_regime_insights_app,
    old_regime_suggestions_app.
  now rewrite <- !app_assoc.
Qed.

Lemma regime_comparison_In (data : Data.t) (a : advice) :
  In a (regime_comparison data []) -> exists r v, a = SwitchRegime r v.
Proof.
  unfold regime_comparison.
  destruct (other_tax data <? current_tax data)%Z; simpl;
    [intros [<- | []]; eauto | intros []].
Qed.

Lemma old_regime_suggestions_In (data : Data.t) (a : advice) :
  In a (old_regime_suggestions data []) ->
  (exists q, a = Invest80C q) \/ a = BuyHealthInsurance
  \/ (exists q, a = Increase80D q).
Proof.
  unfold old_regime_suggestions.
  destruct (Data.get (Data.regime data) "new" =? "old")%string;
    [| intros []].
  destruct (Py.ltb (Data.get (Data.investments_80c data) 0) 150000);
    destruct (Qeq_bool (Data.get (Data.medical_80d data) 0) 0);
    try destruct (Py.ltb (Data.get (Data.medical_80d data) 0) 25000);
    simpl; intuition (subst; eauto).
Qed.

Lemma new_regime_insights_In (data : Data.t) (a : advice) :
  In a (new_regime_insights data []) -> a = JustAboveLimit.
Proof.
  unfold new_regime_insights.
  destruct (Data.get (Data.regime data) "new" =? "new")%string;
    [| intros []].
  destruct (Py.ltb 1200000 (cliff_taxable data)
            && Py.leb (cliff_taxable data) 1300000); simpl;
    [intros [<- | []]; reflexivity | intros []].
Qed.

Lemma general_insights_In (data : Data.t) (a : advice) :
  In a (general_insights data []) -> a = HighIncome.
Proof.
  unfold general_insights.
  destruct (Py.ltb 1500000 (Data.get (Data.total_income data) 0)); simpl;
    [intros [<- | []]; reflexivity | intros []].
Qed.

Lemma fallback_In (l : list advice) (a : advice) :
  a <> AlreadyOptimized -> (In a (fallback l) <-> In a l).
Proof.
  intros Ha. destruct l as [| b l]; simpl; [| tauto].
  split; [intros [H | []]; congruence | intros []].
Qed.

Lemma before_fallback_not_optimized (data : Data.t) :
  ~ In AlreadyOptimized (suggestions_before_fallback data).
Proof.
  rewrite suggestions_before_fallback_app, !in_app_iff.
  intros [H | [H | [H | H]]].
  - apply regime_comparison_In in H. destruct H as (r & v & H). discriminate.
  - apply old_regime_suggestions_In in H.
    destruct H as [[q H] | [H | [q H]]]; discriminate.
  - apply new_regime_insights_In in H. discriminate.
  - apply general_insights_In in H. discriminate.
Qed.

(** Where the cliff entry can come from: only the new-regime step. *)
Lemma just_above_limit_In (data : Data.t) :
  In JustAboveLimit (suggest_savings data)
  <-> In JustAboveLimit (new_regime_insights data []).
Proof.
  unfold suggest_savings. rewrite fallback_In by discriminate.
  rewrite suggestions_before_fallback_app, !in_app_iff.
  split; [| tauto].
  intros [H | [H | [H | H]]].
  - apply regime_comparison_In in H. destruct H as (r & v & H). discriminate.
  - apply old_regime_suggestions_In in H.
    destruct H as [[q H] | [H | [q H]]]; discriminate.
  - exact H.
  - apply general_insights_In in H. discriminate.
Qed.

(** C8, as the code has it.  For a profile whose regime is "new" (given or
    by default), the cliff-avoidance entry is in the list exactly when the
    taxable income max(0, total_income - 75,000) is above 1,200,000 and at
    most 1,300,000: the upper end of the interval is included. *)
Theorem cliff_advice_boundary (data : Data.t) :
  Data.get (Data.regime data) "new"%string = "new"%string ->
  let taxable := Py.max 0 (Data.get (Data.total_income data) 0 - 75000) in
  In JustAboveLimit (suggest_savings data)
  <-> 1200000 < taxable /\ taxable <= 1300000.
Proof.
  intros Hr taxable. rewrite just_above_limit_In.
  unfold new_regime_insights. rewrite Hr. simpl String.eqb. cbv iota.
  unfold cliff_taxable. fold taxable.
  destruct (ltb_cases 1200000 taxable) as [[H1 E1] | [H1 E1]]; rewrite E1;
    destruct (leb_cases taxable 1300000) as [[H2 E2] | [H2 E2]]; rewrite E2;
    simpl; split; intros H; try tauto; lra.
Qed.

Lemma cliff_advice_boundary_witness :
  In JustAboveLimit
     (suggest_savings (Data.mk (Some 1300000) None None None None)).
Proof.
  apply (cliff_advice_boundary (Data.mk (Some 1300000) None None None None)).
  - reflexivity.
  - split; vm_compute; [reflexivity | discriminate].
Defined.

(** C8 as stated fails at the upper endpoint: with total income 1,375,000
    under the new regime, taxable income is exactly 1,300,000, which is not
    strictly below 1,300,000, and the cliff-avoidance entry is emitted. *)
Lemma cliff_advice_open_interval_fails :
  let data := Data.mk (Some 1375000) (Some 30%Z) (Some 0) (Some 0)
                (Some "new"%string) in
  let taxable := Py.max 0 (Data.get (Data.total_income data) 0 - 75000) in
  Data.get (Data.regime data) "new"%string = "new"%string /\
  taxable == 1300000 /\
  In JustAboveLimit (suggest_savings data) /\
  ~ (1200000 < taxable /\ taxable < 1300000).
Proof.
  cbv zeta. split; [reflexivity |]. split; [vm_compute; reflexivity |].
  split.
  - vm_compute. left. reflexivity.
  - intros [_ H]. vm_compute in H. discriminate.
Qed.

(** C9.  The advisor always returns at least one entry.  The "already
    optimized" entry is in the result exactly when the regime comparison,
    the old-regime deduction gaps, the new-regime cliff check and the
    high-income check each contributed nothing, and it is then the only
    entry. *)
Theorem advisor_fallback (data : Data.t) :
  (1 <= List.length (suggest_savings data))%nat /\
  (suggestions_before_fallback data = []
   <-> regime_comparison data [] = [] /\ old_regime_suggestions data [] = []
       /\ new_regime_insights data [] = [] /\ general_insights data [] = []) /\
  (In AlreadyOptimized (suggest_savings data)
   <-> suggestions_before_fallback data = []) /\
  (suggestions_before_fallback data = []
   -> suggest_savings data = [AlreadyOptimized]).
Proof.
  split; [| split; [| split]].
  - unfold suggest_savings, fallback.
    destruct (suggestions_before_fallback data); simpl; lia.
  - rewrite suggestions_before_fallback_app.
    split.
    + intros H. apply app_eq_nil in H. destruct H as [H1 H].
      apply app_eq_nil in H. destruct H as [H2 H].
      apply app_eq_nil in H. tauto.
    + intros (-> & -> & -> & ->). reflexivity.
  - pose proof (before_fallback_not_optimized data) as Hn.
    unfold suggest_savings, fallback.
    destruct (suggestions_before_fallback data) as [| a l].
    + simpl. split; auto.
    + split; [intros H; contradiction | discriminate].
  - unfold suggest_savings. intros ->. reflexivity.
Qed.

Lemma advisor_fallback_witness :
  suggest_savings (Data.mk (Some 1000000) None None None None)
  = [AlreadyOptimized].
Proof.
  apply (advisor_fallback (Data.mk (Some 1000000) None None None None)).
  vm_compute. reflexivity.
Defined.

(** ** Further properties of the calculator *)

Lemma round_nonneg (x : Q) : 0 <= x -> (0 <= Py.round x)%Z.
Proof. intros H. change 0%Z with (Py.round 0). now apply round_le. Qed.

(** A rounded value is within one half of the value it rounds. *)
Lemma round_near (x : Q) :
  x - (1 # 2) <= inject_Z (Py.round x) /\ inject_Z (Py.round x) <= x + (1 # 2).
Proof.
  pose proof (Qfloor_le x) as Hlo. pose proof (Qlt_floor x) as Hhi.
  rewrite inject_Z_plus in Hhi. unfold Py.round.
  assert (H1 : inject_Z (Qfloor x + 1) == inject_Z (Qfloor x) + 1)
    by (rewrite inject_Z_plus; reflexivity).
  change (inject_Z 1) with 1 in *.
  destruct (ltb_cases (x - inject_Z (Qfloor x)) (1 # 2)) as [[? E] | [? E]];
    rewrite E; [lra |].
  destruct (ltb_cases (1 # 2) (x - inject_Z (Qfloor x))) as [[? E'] | [? E']];
    rewrite E'; [rewrite H1; lra |].
  destruct (Z.even (Qfloor x)); [| rewrite H1]; lra.
Qed.

Lemma base_tax_and_income_nonneg
    (g : Q) (age : Z) (c d h n s : Q) (regime : string) :
  0 <= fst (base_tax_and_income g age c d h n s regime) /\
  0 <= snd (base_tax_and_income g age c d h n s regime).
Proof.
  unfold base_tax_and_income.
  destruct (regime =? "new")%string; [| destruct (regime =? "old")%string].
  - unfold new_regime; simpl. split.
    + apply new_rebate_nonneg, new_slab_tax_nonneg.
    + apply max_nonneg.
  - unfold old_regime; simpl. split.
    + apply old_rebate_nonneg, old_slab_tax_nonneg.
      apply basic_exemption_range.
    + apply max_nonneg.
  - simpl. lra.
Qed.

Lemma tax_with_surcharge_and_cess_nonneg (tax r : Q) :
  0 <= tax -> 0 <= r -> 0 <= tax_with_surcharge_and_cess tax r.
Proof.
  intros Ht Hr.
  unfold tax_with_surcharge_and_cess, cess_of, total_tax_of, surcharge_of.
  assert (H : 0 <= tax * r) by (apply Qmult_le_0_compat; assumption).
  lra.
Qed.

Lemma tax_nonneg (g : Q) (age : Z) (c d h n s : Q) (regime : string) :
  (0 <= calculate_tax g age c d h n s regime)%Z.
Proof.
  rewrite calculate_tax_eq. apply round_nonneg. unfold final_amount.
  apply tax_with_surcharge_and_cess_nonneg.
  - apply base_tax_and_income_nonneg.
  - apply surcharge_rate_nonneg.
Qed.

(** X1.  The result is never negative, whatever the inputs (negative incomes
    and deductions and unknown regime strings included). *)
Theorem calculate_tax_nonneg
    (g : Q) (age : Z) (c d h n s : Q) (regime : string) :
  (0 <= calculate_tax g age c d h n s regime)%Z.
Proof. apply tax_nonneg. Qed.

Lemma old_regime_zero_tax (g : Q) (age : Z) (c d h n s : Q) :
  old_taxable_income g age c d h n s <= 500000 ->
  calculate_tax g age c d h n s "old" = 0%Z.
Proof.
  intros Ht. rewrite calculate_tax_eq.
  unfold base_tax_and_income; simpl String.eqb; cbv iota.
  unfold old_regime. apply round_zero.
  unfold final_amount; simpl fst; simpl snd. unfold old_rebate.
  destruct (leb_cases (old_taxable_income g age c d h n s) 500000)
    as [[? E] | [? E]]; [| lra].
  rewrite E. unfold tax_with_surcharge_and_cess, cess_of, total_tax_of,
    surcharge_of. ring.
Qed.

(** X2.  Old-regime rebate: a taxable income of at most 500,000 gives a tax of
    0, whatever the age. *)
Theorem old_regime_rebate (g : Q) (age : Z) (c d h n s : Q) :
  old_taxable_income g age c d h n s <= 500000 ->
  calculate_tax g age c d h n s "old" = 0%Z.
Proof. apply old_regime_zero_tax. Qed.

Lemma old_regime_rebate_witness :
  calculate_tax 600000 45 50000 0 0 0 0 "old" = 0%Z.
Proof.
  apply old_regime_rebate. vm_compute. discriminate.
Defined.

Lemma final_amount_at_least (regime : string) (tax t b : Q) :
  0 <= b -> b <= tax ->
  b * (104 # 100) <= final_amount regime (tax, t).
Proof.
  intros Hb Ht. unfold final_amount; simpl fst; simpl snd.
  pose proof (surcharge_rate_nonneg regime t) as Hr.
  unfold tax_with_surcharge_and_cess, cess_of, total_tax_of, surcharge_of.
  assert (H : 0 <= tax * surcharge_rate regime t)
    by (apply Qmult_le_0_compat; lra).
  lra.
Qed.

(** X3.  The old-regime rebate ends in a cliff: as soon as taxable income is
    above 500,000 the tax is at least 13,000 below age 60 and at least
    10,400 from age 60 to 79. *)
Theorem old_regime_rebate_cliff (g : Q) (age : Z) (c d h n s : Q) :
  500000 < old_taxable_income g age c d h n s ->
  ((age < 60)%Z -> (13000 <= calculate_tax g age c d h n s "old")%Z) /\
  ((60 <= age < 80)%Z -> (10400 <= calculate_tax g age c d h n s "old")%Z).
Proof.
  intros Ht. rewrite calculate_tax_eq.
  unfold base_tax_and_income; simpl String.eqb; cbv iota.
  unfold old_regime. set (t := old_taxable_income g age c d h n s) in *.
  split; intros Ha.
  - change 13000%Z with (Py.round (12500 * (104 # 100))).
    apply round_le, final_amount_at_least; [lra |].
    unfold basic_exemption.
    destruct (Z.geb_spec age 80); [lia |]. destruct (Z.geb_spec age 60); [lia |].
    unfold old_rebate, old_slab_tax. py_cases.
  - change 10400%Z with (Py.round (10000 * (104 # 100))).
    apply round_le, final_amount_at_least; [lra |].
    unfold basic_exemption.
    destruct (Z.geb_spec age 80); [lia |]. destruct (Z.geb_spec age 60); [| lia].
    unfold old_rebate, old_slab_tax. py_cases.
Qed.

Lemma old_regime_rebate_cliff_witness :
  (13000 <= calculate_tax 550001 30 0 0 0 0 0 "old")%Z /\
  (10400 <= calculate_tax 550001 65 0 0 0 0 0 "old")%Z.
Proof.
  split.
  - apply (old_regime_rebate_cliff 550001 30 0 0 0 0 0);
      [vm_compute; reflexivity | lia].
  - apply (old_regime_rebate_cliff 550001 65 0 0 0 0 0);
      [vm_compute; reflexivity | lia].
Defined.

(** X4.  New regime: the base tax (before surcharge and cess) never exceeds the
    amount by which taxable income exceeds 1,200,000, at any income. *)
Theorem new_regime_base_tax_below_excess (g : Q) (age : Z) (c d h n s : Q) :
  base_tax g age c d h n s "new" <= Py.max 0 (Py.max 0 (g - 75000) - 1200000).
Proof.
  unfold base_tax, base_tax_and_income; simpl String.eqb; cbv iota.
  unfold new_regime, new_taxable_income; simpl fst.
  generalize (Py.max 0 (g - 75000)). intros t.
  destruct (max_spec 0 (t - 1200000)) as [[? E] | [? E]]; rewrite E;
    unfold new_rebate, new_slab_tax, Py.min; py_cases.
Qed.

(** X5.  New regime: where the marginal-relief cap binds (taxable income above
    1,200,000 and at most 1,270,588), the 4% cess is charged on top of the
    capped tax, so the value returned is round(1.04 * excess); from an
    excess of 13 on, it is larger than the excess itself. *)
Theorem new_regime_relief_with_cess (g : Q) (age : Z) (c d h n s : Q) :
  let t := Py.max 0 (g - 75000) in
  1200000 < t -> t <= 1270588 ->
  calculate_tax g age c d h n s "new"
  = Py.round ((t - 1200000) * (104 # 100)) /\
  (1200013 <= t ->
   t - 1200000 < inject_Z (calculate_tax g age c d h n s "new")).
Proof.
  intros t Hlo Hhi.
  assert (E : calculate_tax g age c d h n s "new"
              = Py.round ((t - 1200000) * (104 # 100))).
  { rewrite calculate_tax_eq.
    unfold base_tax_and_income; simpl String.eqb; cbv iota.
    unfold new_regime, new_taxable_income. fold t.
    apply round_eq. unfold final_amount; simpl fst; simpl snd.
    unfold tax_with_surcharge_and_cess, cess_of, total_tax_of, surcharge_of.
    unfold surcharge_rate, new_rebate, new_slab_tax, Py.min.
    simpl String.eqb; simpl orb. py_cases. }
  split; [exact E |].
  intros H13. rewrite E.
  pose proof (round_near ((t - 1200000) * (104 # 100))) as [Hn _]. lra.
Qed.

Lemma new_regime_relief_with_cess_witness :
  calculate_tax 1325000 30 0 0 0 0 0 "new"
  = Py.round ((Py.max 0 (1325000 - 75000) - 1200000) * (104 # 100)) /\
  Py.max 0 (1325000 - 75000) - 1200000
  < inject_Z (calculate_tax 1325000 30 0 0 0 0 0 "new").
Proof.
  assert (H1 : 1200000 < Py.max 0 (1325000 - 75000))
    by (vm_compute; reflexivity).
  assert (H2 : Py.max 0 (1325000 - 75000) <= 1270588)
    by (vm_compute; discriminate).
  assert (H3 : 1200013 <= Py.max 0 (1325000 - 75000))
    by (vm_compute; discriminate).
  pose proof (new_regime_relief_with_cess 1325000 30 0 0 0 0 0 H1 H2)
    as [Ha Hb].
  split; [exact Ha | exact (Hb H3)].
Defined.

Lemma min_le_compat_r (a b b' : Q) : b <= b' -> Py.min a b <= Py.min a b'.
Proof.
  intros H. destruct (min_spec a b) as [[? E] | [? E]];
    destruct (min_spec a b') as [[? E'] | [? E']]; rewrite E, E'; lra.
Qed.

Lemma max_ge_r (a b : Q) : b <= Py.max a b.
Proof. destruct (max_spec a b) as [[? E] | [? E]]; rewrite E; lra. Qed.

Lemma basic_exemption_le (age1 age2 : Z) :
  (age1 <= age2)%Z -> basic_exemption age1 <= basic_exemption age2.
Proof.
  intros H. unfold basic_exemption.
  destruct (Z.geb_spec age1 80); destruct (Z.geb_spec age2 80); try lia;
    destruct (Z.geb_spec age1 60); destruct (Z.geb_spec age2 60);
    try lia; lra.
Qed.

Lemma age_caps_le (age1 age2 : Z) :
  (age1 <= age2)%Z ->
  (if (age1 >=? 60)%Z then 50000 else 25000)
  <= (if (age2 >=? 60)%Z then 50000 else 25000) /\
  limit_savings age1 <= limit_savings age2.
Proof.
  intros H. unfold limit_savings.
  destruct (Z.geb_spec age1 60); destruct (Z.geb_spec age2 60);
    try lia; split; lra.
Qed.

(** The old-regime tax falls when the exemption grows and the taxable
    income shrinks. *)
Lemma old_regime_pair_le (e1 e2 t1 t2 : Q) :
  e1 <= e2 -> e2 <= 500000 -> t1 <= t2 ->
  pair_le (old_rebate t1 (old_slab_tax e2 t1), t1)
          (old_rebate t2 (old_slab_tax e1 t2), t2).
Proof.
  intros He He2 Ht. unfold pair_le; simpl.
  split; [| split; [| exact Ht]].
  - apply old_rebate_nonneg, old_slab_tax_nonneg; lra.
  - unfold old_rebate, old_slab_tax. py_cases.
Qed.

(** Deductions, as a whole, only grow with each input and with age. *)
Lemma total_deductions_le (age1 age2 : Z) (c d h n s c' d' h' n' s' : Q) :
  (age1 <= age2)%Z -> c <= c' -> d <= d' -> h <= h' -> n <= n' -> s <= s' ->
  total_deductions age1 c d h n s <= total_deductions age2 c' d' h' n' s'.
Proof.
  intros Ha Hc Hd Hh Hn Hs. destruct (age_caps_le age1 age2 Ha) as [Hcap Hlim].
  unfold total_deductions, deduction_80c, deduction_80d, deduction_nps,
    deduction_home_loan, deduction_savings.
  pose proof (min_le_compat_l c c' 150000 Hc).
  pose proof (min_le_compat_l n n' 50000 Hn).
  pose proof (min_le_compat_l h h' 200000 Hh).
  pose proof (min_le_compat_l d d'
                (if (age1 >=? 60)%Z then 50000 else 25000) Hd) as Hd1.
  pose proof (min_le_compat_r d' _ _ Hcap) as Hd2.
  pose proof (min_le_compat_l s s' (limit_savings age1) Hs) as Hs1.
  pose proof (min_le_compat_r s' _ _ Hlim) as Hs2.
  lra.
Qed.

Lemma calculate_tax_antitone
    (g : Q) (age1 age2 : Z) (c d h n s c' d' h' n' s' : Q) (regime : string) :
  (age1 <= age2)%Z -> c <= c' -> d <= d' -> h <= h' -> n <= n' -> s <= s' ->
  (calculate_tax g age2 c' d' h' n' s' regime
   <= calculate_tax g age1 c d h n s regime)%Z.
Proof.
  intros Ha Hc Hd Hh Hn Hs.
  rewrite !calculate_tax_eq. apply round_le, final_amount_le.
  unfold base_tax_and_income.
  destruct (regime =? "new")%string; [| destruct (regime =? "old")%string].
  - apply new_regime_le. lra.
  - unfold old_regime. apply old_regime_pair_le.
    + now apply basic_exemption_le.
    + apply basic_exemption_range.
    + unfold old_taxable_income. apply max_le_compat.
      pose proof (total_deductions_le age1 age2 c d h n s c' d' h' n' s'
                    Ha Hc Hd Hh Hn Hs). lra.
  - unfold pair_le; simpl. lra.
Qed.

(** X6.  Age never raises the tax: with everything else fixed, an older
    taxpayer pays at most what a younger one pays, under every regime. *)
Theorem tax_antitone_in_age
    (g : Q) (age1 age2 : Z) (c d h n s : Q) (regime : string) :
  (age1 <= age2)%Z ->
  (calculate_tax g age2 c d h n s regime
   <= calculate_tax g age1 c d h n s regime)%Z.
Proof. intros Ha. apply calculate_tax_antitone; (exact Ha || lra). Qed.

Lemma tax_antitone_in_age_witness :
  (calculate_tax 900000 60 0 40000 0 0 30000 "old"
   <= calculate_tax 900000 59 0 40000 0 0 30000 "old")%Z.
Proof. apply tax_antitone_in_age. lia. Defined.

(** X7.  Deductions never raise the tax: raising any of the five deduction
    inputs gives a tax that is at most the previous one, under every
    regime. *)
Theorem tax_antitone_in_deductions
    (g : Q) (age : Z) (c d h n s c' d' h' n' s' : Q) (regime : string) :
  c <= c' -> d <= d' -> h <= h' -> n <= n' -> s <= s' ->
  (calculate_tax g age c' d' h' n' s' regime
   <= calculate_tax g age c d h n s regime)%Z.
Proof. intros. apply calculate_tax_antitone; (assumption || lia). Qed.

Lemma tax_antitone_in_deductions_witness :
  (calculate_tax 1200000 30 150000 25000 100000 50000 10000 "old"
   <= calculate_tax 1200000 30 0 0 0 0 0 "old")%Z.
Proof. apply tax_antitone_in_deductions; vm_compute; discriminate. Defined.

Ltac amount_cases :=
  unfold final_amount; simpl fst; simpl snd;
  unfold tax_with_surcharge_and_cess, cess_of, total_tax_of, surcharge_of,
    surcharge_rate;
  simpl String.eqb; simpl orb.

Lemma new_amount_bound (t : Q) :
  0 <= t ->
  let x := final_amount "new" (new_rebate t (new_slab_tax t), t) in
  x == 0 \/ x + (1 # 2) <= (43 # 100) * t.
Proof.
  intros Ht. cbv zeta. amount_cases.
  unfold new_rebate, new_slab_tax, Py.min.
  py_cases; first [left; lra | right; lra].
Qed.

Lemma old_amount_bound (regime : string) (e t : Q) :
  0 <= e -> e <= 500000 -> 0 <= t ->
  let x := final_amount regime (old_rebate t (old_slab_tax e t), t) in
  x == 0 \/ x + (1 # 2) <= (43 # 100) * t.
Proof.
  intros He0 He Ht. cbv zeta. amount_cases.
  destruct (regime =? "new")%string; simpl orb;
    unfold old_rebate, old_slab_tax;
    py_cases; first [left; lra | right; lra].
Qed.

(** X8.  The tax is at most 43% of the taxable income (the top of the old
    regime is 30% with a 37% surcharge and the 4% cess, 42.744%). *)
Theorem tax_at_most_43_percent
    (g : Q) (age : Z) (c d h n s : Q) (regime : string) :
  inject_Z (calculate_tax g age c d h n s regime)
  <= (43 # 100) * taxable_income_of g age c d h n s regime.
Proof.
  rewrite calculate_tax_eq. unfold taxable_income_of.
  pose proof (base_tax_and_income_nonneg g age c d h n s regime) as [_ Ht].
  assert (Hx : final_amount regime (base_tax_and_income g age c d h n s regime)
               == 0
               \/ final_amount regime
                    (base_tax_and_income g age c d h n s regime) + (1 # 2)
                  <= (43 # 100)
                     * snd (base_tax_and_income g age c d h n s regime)).
  { revert Ht. unfold base_tax_and_income.
    destruct (regime =? "new")%string eqn:En;
      [| destruct (regime =? "old")%string eqn:Eo].
    - apply String.eqb_eq in En. subst regime.
      unfold new_regime; simpl snd. intros Ht. now apply new_amount_bound.
    - unfold old_regime; simpl snd. intros Ht.
      apply old_amount_bound; [apply basic_exemption_range .. | exact Ht].
    - intros _. left. amount_cases. py_cases. }
  destruct Hx as [Hx | Hx].
  - rewrite (round_zero _ Hx). change (inject_Z 0) with 0. lra.
  - pose proof (round_near
                  (final_amount regime
                     (base_tax_and_income g age c d h n s regime))) as [_ Hr].
    lra.
Qed.

(** ** Further properties of the advisor *)

Lemma new_regime_zero_tax (g : Q) (age : Z) (c d h n s : Q) :
  g <= 1275000 -> calculate_tax g age c d h n s "new" = 0%Z.
Proof.
  intros Hg. rewrite calculate_tax_eq.
  unfold base_tax_and_income; simpl String.eqb; cbv iota.
  unfold new_regime, new_taxable_income. apply round_zero.
  destruct (max_spec 0 (g - 75000)) as [[? E] | [? E]]; rewrite E;
    amount_cases; unfold new_rebate; py_cases.
Qed.

Lemma unknown_regime_zero_tax (g : Q) (age : Z) (c d h n s : Q) (r : string) :
  (r =? "new")%string = false -> (r =? "old")%string = false ->
  calculate_tax g age c d h n s r = 0%Z.
Proof.
  intros Hn Ho. unfold calculate_tax, base_tax_and_income.
  rewrite Hn, Ho. reflexivity.
Qed.

(** Destructs the tests of the advisor, keeping what each one says. *)
Ltac advisor_cases :=
  repeat match goal with
  | |- context [Py.ltb ?a ?b] =>
      let H := fresh "H" in let E := fresh "E" in
      destruct (ltb_cases a b) as [[H E] | [H E]]; rewrite E; clear E
  | |- context [Py.leb ?a ?b] =>
      let H := fresh "H" in let E := fresh "E" in
      destruct (leb_cases a b) as [[H E] | [H E]]; rewrite E; clear E
  | |- context [Qeq_bool ?a ?b] =>
      let E := fresh "E" in
      destruct (Qeq_bool a b) eqn:E;
      [apply Qeq_bool_iff in E | apply Qeq_bool_neq in E]
  | |- context [(?a <? ?b)%Z] =>
      destruct (Z.ltb_spec a b)
  end.

Section Parts.

Variable data : Data.t.

Let income := Data.get (Data.total_income data) 0.
Let inv_80c := Data.get (Data.investments_80c data) 0.
Let med_80d := Data.get (Data.medical_80d data) 0.
Let regime := Data.get (Data.regime data) "new"%string.

Lemma regime_comparison_shape :
  ((other_tax data < current_tax data)%Z /\
   regime_comparison data []
   = [SwitchRegime (other_regime data) (current_tax data - other_tax data)])
  \/ ((current_tax data <= other_tax data)%Z /\ regime_comparison data [] = []).
Proof.
  unfold regime_comparison.
  destruct (Z.ltb_spec (other_tax data) (current_tax data)); [left | right];
    split; auto.
Qed.

Lemma old_regime_suggestions_skip :
  regime <> "old"%string -> old_regime_suggestions data [] = [].
Proof.
  intros H. apply String.eqb_neq in H. unfold old_regime_suggestions.
  fold regime. rewrite H. reflexivity.
Qed.

Lemma old_regime_suggestions_shape :
  regime = "old"%string ->
  old_regime_suggestions data []
  = (if Py.ltb inv_80c 150000 then [Invest80C (150000 - inv_80c)] else [])
    ++ (if Qeq_bool med_80d 0 then [BuyHealthInsurance]
        else if Py.ltb med_80d 25000 then [Increase80D (25000 - med_80d)]
        else []).
Proof.
  intros H. unfold old_regime_suggestions. fold regime inv_80c med_80d.
  rewrite H. simpl String.eqb. cbv iota.
  destruct (Py.ltb inv_80c 150000); destruct (Qeq_bool med_80d 0);
    try destruct (Py.ltb med_80d 25000); reflexivity.
Qed.

Lemma new_regime_insights_skip :
  regime <> "new"%string -> new_regime_insights data [] = [].
Proof.
  intros H. apply String.eqb_neq in H. unfold new_regime_insights.
  fold regime. rewrite H. reflexivity.
Qed.

Lemma new_regime_insights_shape :
  new_regime_insights data [] = [] \/
  new_regime_insights data [] = [JustAboveLimit].
Proof.
  unfold new_regime_insights.
  destruct (Data.get (Data.regime data) "new"%string =? "new")%string; auto.
  destruct (Py.ltb 1200000 (cliff_taxable data)
            && Py.leb (cliff_taxable data) 1300000); auto.
Qed.

Lemma general_insights_shape :
  (1500000 < income /\ general_insights data [] = [HighIncome]) \/
  (income <= 1500000 /\ general_insights data [] = []).
Proof.
  unfold general_insights. fold income.
  destruct (ltb_cases 1500000 income) as [[H E] | [H E]]; rewrite E; auto.
Qed.

End Parts.

(** X11.  The entries always come in the fixed order of the source (switch, 80C
    gap, 80D entry, cliff, high income, fallback), with at most one entry of
    each rank, and there are never more than four of them. *)
Theorem advice_order (data : Data.t) :
  StronglySorted before (suggest_savings data) /\
  (List.length (suggest_savings data) <= 4)%nat.
Proof.
  unfold suggest_savings. rewrite suggestions_before_fallback_app.
  destruct (regime_comparison_shape data) as [[_ ->] | [_ ->]];
  destruct (new_regime_insights_shape data) as [HC | HC];
  destruct (general_insights_shape data) as [[_ ->] | [_ ->]];
  (destruct (string_dec (Data.get (Data.regime data) "new"%string) "old"%string) as [Ho | Ho];
   [ assert (HC' : new_regime_insights data [] = [])
       by (apply new_regime_insights_skip; rewrite Ho; discriminate);
     rewrite HC'; rewrite (old_regime_suggestions_shape data Ho);
     destruct (Py.ltb (Data.get (Data.investments_80c data) 0) 150000);
     destruct (Qeq_bool (Data.get (Data.medical_80d data) 0) 0);
     try destruct (Py.ltb (Data.get (Data.medical_80d data) 0) 25000)
   | rewrite (old_regime_suggestions_skip data Ho); rewrite HC ]);
  simpl; (split; [repeat constructor; unfold before; simpl; lia | lia]).
Qed.

Lemma before_fallback_In (data : Data.t) (a : advice) :
  a <> AlreadyOptimized ->
  (In a (suggest_savings data)
   <-> In a (regime_comparison data []) \/ In a (old_regime_suggestions data [])
       \/ In a (new_regime_insights data []) \/ In a (general_insights data [])).
Proof.
  intros Ha. unfold suggest_savings. rewrite (fallback_In _ _ Ha).
  rewrite suggestions_before_fallback_app, !in_app_iff. tauto.
Qed.

Lemma fallback_head (a : advice) (l : list advice) :
  fallback (a :: l) = a :: l.
Proof. reflexivity. Qed.

Lemma switch_suggestion_iff (data : Data.t) (r : string) (v : Z) :
  (In (SwitchRegime r v) (suggest_savings data)
   <-> (other_tax data < current_tax data)%Z /\ r = other_regime data
       /\ v = (current_tax data - other_tax data)%Z) /\
  (In (SwitchRegime r v) (suggest_savings data)
   -> hd_error (suggest_savings data) = Some (SwitchRegime r v) /\ (0 < v)%Z).
Proof.
  assert (Hin : In (SwitchRegime r v) (suggest_savings data)
                <-> In (SwitchRegime r v) (regime_comparison data [])).
  { rewrite before_fallback_In by discriminate. split; [| tauto].
    intros [H | [H | [H | H]]]; [exact H | | |].
    - apply old_regime_suggestions_In in H.
      destruct H as [[q H] | [H | [q H]]]; discriminate.
    - apply new_regime_insights_In in H. discriminate.
    - apply general_insights_In in H. discriminate. }
  assert (Hiff : In (SwitchRegime r v) (suggest_savings data)
                 <-> (other_tax data < current_tax data)%Z
                     /\ r = other_regime data
                     /\ v = (current_tax data - other_tax data)%Z).
  { rewrite Hin.
    destruct (regime_comparison_shape data) as [[Hlt ->] | [Hle ->]]; simpl.
    - split.
      + intros [H | []]. injection H as <- <-. auto.
      + intros (_ & -> & ->). now left.
    - split; [intros [] | intros (H & _); lia]. }
  split; [exact Hiff |].
  intros H. apply Hiff in H. destruct H as (Hlt & -> & ->).
  split; [| lia].
  unfold suggest_savings. rewrite suggestions_before_fallback_app.
  destruct (regime_comparison_shape data) as [[_ ->] | [Hle _]]; [| lia].
  reflexivity.
Qed.

Lemma suggest_savings_nonempty (data : Data.t) :
  (1 <= List.length (suggest_savings data))%nat.
Proof.
  unfold suggest_savings, fallback.
  destruct (suggestions_before_fallback data); simpl; lia.
Qed.

(** X12.  The switch entry is emitted exactly when the tax of the other regime
    is strictly lower; it names that regime, its saving is the difference of
    the two taxes, which is positive, and it is the first entry. *)
Theorem switch_suggestion (data : Data.t) (r : string) (v : Z) :
  (In (SwitchRegime r v) (suggest_savings data)
   <-> (other_tax data < current_tax data)%Z /\ r = other_regime data
       /\ v = (current_tax data - other_tax data)%Z) /\
  (In (SwitchRegime r v) (suggest_savings data)
   -> hd_error (suggest_savings data) = Some (SwitchRegime r v) /\ (0 < v)%Z).
Proof. apply switch_suggestion_iff. Qed.

(** X13.  The high-income entry is emitted exactly when total income is above
    1,500,000 and is then the last entry; it never appears together with
    the cliff entry. *)
Theorem high_income_entry (data : Data.t) :
  (In HighIncome (suggest_savings data)
   <-> 1500000 < Data.get (Data.total_income data) 0) /\
  (In HighIncome (suggest_savings data)
   -> last (suggest_savings data) AlreadyOptimized = HighIncome) /\
  ~ (In HighIncome (suggest_savings data)
     /\ In JustAboveLimit (suggest_savings data)).
Proof.
  assert (Hin : In HighIncome (suggest_savings data)
                <-> 1500000 < Data.get (Data.total_income data) 0).
  { rewrite before_fallback_In by discriminate. split.
    - intros [H | [H | [H | H]]].
      + apply regime_comparison_In in H. destruct H as (r & v & H).
        discriminate.
      + apply old_regime_suggestions_In in H.
        destruct H as [[q H] | [H | [q H]]]; discriminate.
      + apply new_regime_insights_In in H. discriminate.
      + destruct (general_insights_shape data) as [[Hi _] | [_ E]];
          [exact Hi | rewrite E in H; destruct H].
    - intros Hi. right. right. right.
      destruct (general_insights_shape data) as [[_ ->] | [Hle _]];
        [now left | lra]. }
  split; [exact Hin |]. split.
  - intros H. apply Hin in H.
    unfold suggest_savings. rewrite suggestions_before_fallback_app.
    destruct (general_insights_shape data) as [[_ ->] | [Hle _]]; [| lra].
    rewrite !app_assoc.
    destruct ((regime_comparison data [] ++ old_regime_suggestions data [])
              ++ new_regime_insights data []) as [| a l]; [reflexivity |].
    rewrite <- app_comm_cons, fallback_head.
    apply (last_last (a :: l) HighIncome AlreadyOptimized).
  - intros [Hh Hj]. apply Hin in Hh. apply just_above_limit_In in Hj.
    revert Hj. unfold new_regime_insights, cliff_taxable.
    destruct (Data.get (Data.regime data) "new"%string =? "new")%string;
      [| intros []].
    destruct (max_spec 0 (Data.get (Data.total_income data) 0 - 75000))
      as [[? E] | [? E]]; rewrite E;
      advisor_cases; simpl; try (intros []); lra.
Qed.

Lemma new_regime_no_advice (data : Data.t) :
  Data.get (Data.regime data) "new"%string = "new"%string ->
  Data.get (Data.total_income data) 0 <= 1275000 ->
  current_tax data = 0%Z /\ suggest_savings data = [AlreadyOptimized].
Proof.
  intros Hr Hi.
  assert (Hc : current_tax data = 0%Z).
  { unfold current_tax. rewrite Hr. now apply new_regime_zero_tax. }
  split; [exact Hc |].
  unfold suggest_savings. rewrite suggestions_before_fallback_app.
  destruct (regime_comparison_shape data) as [[Hlt _] | [_ ->]].
  { pose proof (tax_nonneg
                  (Data.get (Data.total_income data) 0)
                  (Data.get (Data.age data) 30%Z)
                  (if (other_regime data =? "old")%string
                   then Data.get (Data.investments_80c data) 0 else 0)
                  (if (other_regime data =? "old")%string
                   then Data.get (Data.medical_80d data) 0 else 0)
                  0 0 0 (other_regime data)) as Hn.
    fold (other_tax data) in Hn. lia. }
  rewrite old_regime_suggestions_skip by (rewrite Hr; discriminate).
  destruct (general_insights_shape data) as [[Hh _] | [_ ->]]; [lra |].
  assert (HC : new_regime_insights data [] = []).
  { unfold new_regime_insights, cliff_taxable. rewrite Hr.
    simpl String.eqb. cbv iota.
    destruct (max_spec 0 (Data.get (Data.total_income data) 0 - 75000))
      as [[? E] | [? E]]; rewrite E;
      advisor_cases; simpl; try reflexivity; lra. }
  rewrite HC. reflexivity.
Qed.

(** X14.  A new-regime profile with total income up to 1,275,000 owes no tax and
    gets the fallback entry alone: no switch is ever suggested to it. *)
Theorem new_regime_no_tax_no_advice (data : Data.t) :
  Data.get (Data.regime data) "new"%string = "new"%string ->
  Data.get (Data.total_income data) 0 <= 1275000 ->
  current_tax data = 0%Z /\ suggest_savings data = [AlreadyOptimized].
Proof. apply new_regime_no_advice. Qed.

(** X15.  With a regime string other than "new" and "old" the advisor compares a
    tax of 0 with the new-regime tax, so it never suggests a switch, and
    skips both regime-specific steps: the result is the high-income entry
    alone above 1,500,000 and the fallback entry alone otherwise. *)
Theorem unrecognized_regime_advice (data : Data.t) :
  Data.get (Data.regime data) "new"%string <> "new"%string ->
  Data.get (Data.regime data) "new"%string <> "old"%string ->
  suggest_savings data
  = if Py.ltb 1500000 (Data.get (Data.total_income data) 0)
    then [HighIncome] else [AlreadyOptimized].
Proof.
  intros Hn Ho.
  assert (Hc : current_tax data = 0%Z).
  { unfold current_tax.
    apply unknown_regime_zero_tax; now apply String.eqb_neq. }
  unfold suggest_savings. rewrite suggestions_before_fallback_app.
  destruct (regime_comparison_shape data) as [[Hlt _] | [_ ->]].
  { pose proof (tax_nonneg
                  (Data.get (Data.total_income data) 0)
                  (Data.get (Data.age data) 30%Z)
                  (if (other_regime data =? "old")%string
                   then Data.get (Data.investments_80c data) 0 else 0)
                  (if (other_regime data =? "old")%string
                   then Data.get (Data.medical_80d data) 0 else 0)
                  0 0 0 (other_regime data)) as Hnn.
    fold (other_tax data) in Hnn. lia. }
  rewrite (old_regime_suggestions_skip data Ho).
  rewrite (new_regime_insights_skip data Hn).
  unfold general_insights.
  destruct (Py.ltb 1500000 (Data.get (Data.total_income data) 0)); reflexivity.
Qed.

(** X16.  The deduction-gap entries belong to the old regime only: the 80C entry
    is emitted exactly when investments are below 150,000, with the missing
    amount; the health-insurance entry exactly when the 80D amount is 0; the
    80D top-up entry exactly when that amount is non-zero and below 25,000,
    with the missing amount, whatever the age. *)
Theorem deduction_gap_entries (data : Data.t) (q : Q) :
  let regime := Data.get (Data.regime data) "new"%string in
  let inv_80c := Data.get (Data.investments_80c data) 0 in
  let med_80d := Data.get (Data.medical_80d data) 0 in
  (In (Invest80C q) (suggest_savings data)
   <-> regime = "old"%string /\ inv_80c < 150000 /\ q = 150000 - inv_80c) /\
  (In BuyHealthInsurance (suggest_savings data)
   <-> regime = "old"%string /\ med_80d == 0) /\
  (In (Increase80D q) (suggest_savings data)
   <-> regime = "old"%string /\ ~ med_80d == 0 /\ med_80d < 25000
       /\ q = 25000 - med_80d).
Proof.
  intros regime inv_80c med_80d.
  assert (Hin : forall a, (exists x, a = Invest80C x) \/ a = BuyHealthInsurance
                          \/ (exists x, a = Increase80D x) ->
                In a (suggest_savings data)
                <-> In a (old_regime_suggestions data [])).
  { intros a Ha. rewrite before_fallback_In
      by (destruct Ha as [[x ->] | [-> | [x ->]]]; discriminate).
    split; [| tauto].
    intros [H | [H | [H | H]]]; [| exact H | |].
    - apply regime_comparison_In in H. destruct H as (r & v & ->).
      destruct Ha as [[x Ha] | [Ha | [x Ha]]]; discriminate.
    - apply new_regime_insights_In in H. subst a.
      destruct Ha as [[x Ha] | [Ha | [x Ha]]]; discriminate.
    - apply general_insights_In in H. subst a.
      destruct Ha as [[x Ha] | [Ha | [x Ha]]]; discriminate. }
  rewrite !Hin by eauto.
  destruct (string_dec regime "old"%string) as [Ho | Ho].
  - rewrite (old_regime_suggestions_shape data Ho).
    fold inv_80c med_80d. rewrite !in_app_iff.
    advisor_cases; simpl;
      repeat split; intros; intuition (try discriminate; try congruence; try lra).
  - rewrite (old_regime_suggestions_skip data Ho). simpl.
    repeat split; intros; intuition.
Qed.

Lemma switch_suggestion_witness :
  hd_error (suggest_savings
              (Data.mk (Some 1000000) None None None (Some "old"%string)))
  = Some (SwitchRegime "new" 106600) /\ (0 < 106600)%Z.
Proof.
  apply (switch_suggestion
           (Data.mk (Some 1000000) None None None (Some "old"%string))).
  vm_compute. left. reflexivity.
Defined.

Lemma high_income_entry_witness :
  last (suggest_savings (Data.mk (Some 2000000) None None None None))
       AlreadyOptimized = HighIncome.
Proof.
  apply (high_income_entry (Data.mk (Some 2000000) None None None None)).
  vm_compute. left. reflexivity.
Defined.

Lemma new_regime_no_tax_no_advice_witness :
  current_tax (Data.mk (Some 1275000) None (Some 150000) None None) = 0%Z /\
  suggest_savings (Data.mk (Some 1275000) None (Some 150000) None None)
  = [AlreadyOptimized].
Proof.
  apply new_regime_no_tax_no_advice; [reflexivity | vm_compute; discriminate].
Defined.

Lemma unrecognized_regime_advice_witness :
  suggest_savings (Data.mk (Some 2000000) None None None (Some "OLD"%string))
  = [HighIncome].
Proof.
  apply (unrecognized_regime_advice
           (Data.mk (Some 2000000) None None None (Some "OLD"%string)));
    discriminate.
Defined.

(** ** logic.py: calculate_from_list *)

Section CalculateFromListFacts.

Variable float_of_string : string -> option Q.


Lemma round2_zero : Logic.round2 0 == 0.
Proof. reflexivity. Qed.

Lemma update_skip (acc : Logic.totals) (t : Logic.transaction) :
  Logic.read float_of_string t = None ->
  Logic.update float_of_string acc t = acc.
Proof. intros H. unfold Logic.update. now rewrite H. Qed.

Lemma malformed_read (t : Logic.transaction) :
  Logic.malformed float_of_string t -> Logic.read float_of_string t = None.
Proof.
  intros H. destruct H as [| a ty c Ha | a v c Hv | a ty v Hv]; simpl.
  - reflexivity.
  - now rewrite Ha.
  - destruct (Logic.float float_of_string (Data.get a (Logic.VInt 0)));
      [| reflexivity].
    destruct v; try reflexivity. exfalso. eapply Hv. reflexivity.
  - destruct (Logic.float float_of_string (Data.get a (Logic.VInt 0)));
      [| reflexivity].
    destruct (Logic.lower_of (Data.get ty (Logic.VStr ""))); [| reflexivity].
    destruct v; try reflexivity. exfalso. eapply Hv. reflexivity.
Qed.

Lemma same_refl (a : Logic.totals) : Logic.same a a.
Proof. repeat split; reflexivity. Qed.

Lemma same_sym (a b : Logic.totals) : Logic.same a b -> Logic.same b a.
Proof. intros (H1 & H2 & H3 & H4). repeat split; now symmetry. Qed.

Lemma same_trans (a b c : Logic.totals) :
  Logic.same a b -> Logic.same b c -> Logic.same a c.
Proof.
  intros (H1 & H2 & H3 & H4) (K1 & K2 & K3 & K4).
  repeat split; etransitivity; eassumption.
Qed.

(** The early return on an empty list gives what the loop and the rounding
    would give. *)
Lemma calculate_from_list_rounded (l : list Logic.transaction) :
  Logic.same (Logic.calculate_from_list float_of_string l)
    (Logic.rounded (fold_left (Logic.update float_of_string) l Logic.zero)).
Proof.
  destruct l as [| t l]; [| apply same_refl].
  simpl. repeat split; symmetry; apply round2_zero.
Qed.

(** X17.  An element that is not a dict, whose amount [float] rejects (an
    int beyond the range of doubles included), or whose type or category is
    present but is not a string, is passed over: the totals are those of the
    list without it.  This holds for a credit with a non-string category
    too, although the category of a credit is never looked at. *)
Theorem malformed_transaction_skipped
    (l1 l2 : list Logic.transaction) (t : Logic.transaction) :
  Logic.malformed float_of_string t ->
  Logic.same (Logic.calculate_from_list float_of_string (l1 ++ t :: l2))
             (Logic.calculate_from_list float_of_string (l1 ++ l2)).
Proof.
  intros Hm. apply malformed_read in Hm.
  eapply same_trans; [apply calculate_from_list_rounded |].
  eapply same_trans; [| apply same_sym, calculate_from_list_rounded].
  rewrite !fold_left_app. cbn [fold_left].
  rewrite update_skip by assumption. apply same_refl.
Qed.




End CalculateFromListFacts.

Lemma malformed_transaction_skipped_witness :
  Logic.same
    (Logic.calculate_from_list (fun _ => None)
       ([Logic.Dict (Some (Logic.VNum 1000)) (Some (Logic.VStr "Credit"))
           (Some (Logic.VStr "Salary"))]
        ++ Logic.Dict (Some (Logic.VInt (10 ^ 400)))
             (Some (Logic.VStr "Credit")) (Some (Logic.VStr "Salary")) :: []))
    (Logic.calculate_from_list (fun _ => None)
       ([Logic.Dict (Some (Logic.VNum 1000)) (Some (Logic.VStr "Credit"))
           (Some (Logic.VStr "Salary"))] ++ [])) /\
  Logic.same
    (Logic.calculate_from_list (fun _ => None)
       ([Logic.Dict (Some (Logic.VNum 1000)) (Some (Logic.VStr "Credit"))
           (Some (Logic.VStr "Salary"))]
        ++ Logic.Dict (Some (Logic.VNum 500)) (Some (Logic.VStr "Credit"))
             (Some Logic.VOther) :: []))
    (Logic.calculate_from_list (fun _ => None)
       ([Logic.Dict (Some (Logic.VNum 1000)) (Some (Logic.VStr "Credit"))
           (Some (Logic.VStr "Salary"))] ++ [])).
Proof.
  split.
  - apply malformed_transaction_skipped.
    apply Logic.malformed_amount. vm_compute. reflexivity.
  - apply malformed_transaction_skipped.
    apply Logic.malformed_category. intros s. discriminate.
Defined.


Example calculate_from_list_example :
  Logic.same
    (Logic.calculate_from_list (fun _ => None)
       [Logic.Dict (Some (Logic.VNum 1000)) (Some (Logic.VStr "Credit"))
          (Some (Logic.VStr "Salary"));
        Logic.Dict (Some (Logic.VNum (125 # 1000))) (Some (Logic.VStr "DEBIT"))
          (Some (Logic.VStr "Health Insurance"));
        Logic.Dict (Some (Logic.VNum 7)) (Some (Logic.VStr "debit")) None;
        Logic.Dict None (Some (Logic.VStr "debit")) (Some (Logic.VStr "LIC"));
        Logic.NotDict])
    (Logic.mk 1000 0 (12 # 100) (712 # 100)).
Proof. vm_compute. repeat split. Qed.

(** ** main.py: manual entries and tax report *)

Lemma calculate_tax_le_income
    (g1 g2 : Q) (age : Z) (c d h n s : Q) (regime : string) :
  g1 <= g2 ->
  (calculate_tax g1 age c d h n s regime
   <= calculate_tax g2 age c d h n s regime)%Z.
Proof.
  intros H. rewrite !calculate_tax_eq. apply round_le, final_amount_le.
  unfold base_tax_and_income.
  destruct (regime =? "new")%string; [| destruct (regime =? "old")%string].
  - apply new_regime_le. unfold new_taxable_income.
    apply max_le_compat. lra.
  - apply old_regime_le. unfold old_taxable_income.
    apply max_le_compat. lra.
  - unfold pair_le; simpl. lra.
Qed.

Lemma min_nonneg (a b : Q) : 0 <= a -> 0 <= b -> 0 <= Py.min a b.
Proof.
  intros Ha Hb. destruct (min_spec a b) as [[? E] | [? E]]; rewrite E; lra.
Qed.

(** With non-negative inputs the deductions are at least the standard
    50,000. *)
Lemma total_deductions_at_least (age : Z) (c d h n s : Q) :
  0 <= c -> 0 <= d -> 0 <= h -> 0 <= n -> 0 <= s ->
  50000 <= total_deductions age c d h n s.
Proof.
  intros Hc Hd Hh Hn Hs.
  unfold total_deductions, deduction_80c, deduction_80d, deduction_nps,
    deduction_home_loan, deduction_savings, limit_savings.
  pose proof (min_nonneg c 150000 Hc).
  pose proof (min_nonneg n 50000 Hn).
  pose proof (min_nonneg h 200000 Hh).
  assert (0 <= Py.min d (if (age >=? 60)%Z then 50000 else 25000))
    by (apply min_nonneg; [assumption | destruct (age >=? 60)%Z; lra]).
  assert (0 <= Py.min s (if (age >=? 60)%Z then 50000 else 10000))
    by (apply min_nonneg; [assumption | destruct (age >=? 60)%Z; lra]).
  lra.
Qed.

Section ManualEntriesFacts.

Variable float_of_string : string -> option Q.



Lemma manual_entry_some (d d' : Main.ai_data) (e : Main.entry) :
  Main.manual_entry float_of_string d e = Some d' ->
  d' = Main.mk
         (Main.total_income
            (Main.update_totals d (Logic.VStr (Main.category_of e))
               (Main.amount_of float_of_string e)))
         (Main.investments_80c
            (Main.update_totals d (Logic.VStr (Main.category_of e))
               (Main.amount_of float_of_string e)))
         (Main.medical_80d
            (Main.update_totals d (Logic.VStr (Main.category_of e))
               (Main.amount_of float_of_string e)))
         (Main.expenses
            (Main.update_totals d (Logic.VStr (Main.category_of e))
               (Main.amount_of float_of_string e)))
         (Some (Main.new_txn float_of_string e
                :: Data.get (Main.raw_transactions d) [])).
Proof.
  destruct e as [| de a c]; simpl; [discriminate |].
  unfold Main.new_txn, Main.amount_of, Main.category_of, Main.description_of.
  destruct (Logic.float float_of_string (Data.get a (Logic.VInt 0)))
    as [amt |]; [| discriminate].
  destruct c as [v |]; simpl.
  - destruct v; try discriminate. intros H. injection H as <-.
    f_equal. f_equal. f_equal.
    unfold Main.update_totals.
    destruct (Main.is_str (Logic.VStr s) "income");
      [reflexivity |].
    destruct (Main.is_str (Logic.VStr s) "80c"); [reflexivity |].
    destruct (Main.is_str (Logic.VStr s) "80d"); [reflexivity |].
    destruct (Main.is_str (Logic.VStr s) "expense"); reflexivity.
  - intros H. injection H as <-. reflexivity.
Qed.


Lemma update_totals_fields (d : Main.ai_data) (c : string) (amt : Q) :
  let d1 := Main.update_totals d (Logic.VStr c) amt in
  Main.income d1
  = (if (c =? "income")%string then Main.income d + amt else Main.income d) /\
  Main.inv_80c d1
  = (if (c =? "80c")%string then Main.inv_80c d + amt else Main.inv_80c d) /\
  Main.med_80d d1
  = (if (c =? "80d")%string then Main.med_80d d + amt else Main.med_80d d) /\
  Data.get (Main.expenses d1) 0
  = (if existsb (String.eqb c) ["80c"; "80d"; "expense"]%string
     then Data.get (Main.expenses d) 0 + amt
     else Data.get (Main.expenses d) 0) /\
  Main.raw_transactions d1 = Main.raw_transactions d.
Proof.
  cbv zeta. unfold Main.update_totals, Main.is_str,
    Main.income, Main.inv_80c, Main.med_80d.
  destruct (c =? "income")%string eqn:E1.
  { apply String.eqb_eq in E1. subst c. simpl. repeat split. }
  destruct (c =? "80c")%string eqn:E2.
  { apply String.eqb_eq in E2. subst c. simpl. repeat split. }
  destruct (c =? "80d")%string eqn:E3.
  { apply String.eqb_eq in E3. subst c. simpl. repeat split. }
  destruct (c =? "expense")%string eqn:E4.
  { apply String.eqb_eq in E4. subst c. simpl. repeat split. }
  simpl. rewrite E2, E3, E4. simpl. repeat split.
Qed.

(** X20.  When the loop over the manual entries succeeds, the rows of the entries
    stand in front of the earlier rows, the last entry first, every one
    flagged as manual; total income has grown by the amounts of the
    'income' entries, the 80C and 80D totals by those of the '80c' and
    '80d' entries, and the expenses by those of the '80c', '80d' and
    'expense' entries.  Entries of any other category change no total. *)
Theorem manual_entries_result
    (l : list Main.entry) (d d' : Main.ai_data) :
  Main.manual_entries float_of_string d l = Some d' ->
  Data.get (Main.raw_transactions d') []
  = rev (map (Main.new_txn float_of_string) l)
    ++ Data.get (Main.raw_transactions d) [] /\
  Main.income d'
  = Main.add_amounts float_of_string ["income"%string] (Main.income d) l /\
  Main.inv_80c d'
  = Main.add_amounts float_of_string ["80c"%string] (Main.inv_80c d) l /\
  Main.med_80d d'
  = Main.add_amounts float_of_string ["80d"%string] (Main.med_80d d) l /\
  Data.get (Main.expenses d') 0
  = Main.add_amounts float_of_string ["80c"; "80d"; "expense"]%string
      (Data.get (Main.expenses d) 0) l.
Proof.
  revert d. induction l as [| e l IH]; intros d; simpl.
  - intros H. injection H as <-. repeat split.
  - destruct (Main.manual_entry float_of_string d e) as [d1 |] eqn:E;
      [| discriminate].
    intros H. apply IH in H. destruct H as (Hr & Hi & Hc & Hm & He).
    apply manual_entry_some in E.
    pose proof (update_totals_fields d (Main.category_of e)
                  (Main.amount_of float_of_string e))
      as (Fi & Fc & Fm & Fe & Fr).
    cbv zeta in Fi, Fc, Fm, Fe, Fr.
    assert (Ei : Main.income d1
                 = Main.income
                     (Main.update_totals d (Logic.VStr (Main.category_of e))
                        (Main.amount_of float_of_string e)))
      by (rewrite E; reflexivity).
    assert (Ec : Main.inv_80c d1
                 = Main.inv_80c
                     (Main.update_totals d (Logic.VStr (Main.category_of e))
                        (Main.amount_of float_of_string e)))
      by (rewrite E; reflexivity).
    assert (Em : Main.med_80d d1
                 = Main.med_80d
                     (Main.update_totals d (Logic.VStr (Main.category_of e))
                        (Main.amount_of float_of_string e)))
      by (rewrite E; reflexivity).
    assert (Ee : Data.get (Main.expenses d1) 0
                 = Data.get
                     (Main.expenses
                        (Main.update_totals d
                           (Logic.VStr (Main.category_of e))
                           (Main.amount_of float_of_string e))) 0)
      by (rewrite E; reflexivity).
    assert (Er : Data.get (Main.raw_transactions d1) []
                 = Main.new_txn float_of_string e
                   :: Data.get (Main.raw_transactions d) [])
      by (rewrite E; reflexivity).
    rewrite Hr, Hi, Hc, Hm, He, Er, Ei, Ec, Em, Ee, Fi, Fc, Fm, Fe.
    unfold Main.add_amounts. simpl.
    rewrite <- app_assoc. simpl.
    rewrite !orb_false_r. repeat split.
Qed.


(** X21.  Effect of one accepted manual entry with a non-negative amount on the
    two estimates: an 'income' entry lowers neither; an '80c' or '80d'
    entry leaves the new-regime estimate alone and does not raise the
    old-regime one; an entry of any other category changes neither. *)
Theorem manual_entry_tax_effect
    (d d' : Main.ai_data) (e : Main.entry) :
  Main.manual_entry float_of_string d e = Some d' ->
  0 <= Main.amount_of float_of_string e ->
  let cat := Main.category_of e in
  (cat = "income"%string ->
   (Main.tax_new d <= Main.tax_new d')%Z /\
   (Main.tax_old d <= Main.tax_old d')%Z) /\
  (cat = "80c"%string \/ cat = "80d"%string ->
   Main.tax_new d' = Main.tax_new d /\
   (Main.tax_old d' <= Main.tax_old d)%Z) /\
  (cat <> "income"%string -> cat <> "80c"%string -> cat <> "80d"%string ->
   Main.tax_new d' = Main.tax_new d /\ Main.tax_old d' = Main.tax_old d).
Proof.
  intros E Hamt cat.
  apply manual_entry_some in E.
  pose proof (update_totals_fields d cat (Main.amount_of float_of_string e))
    as (Fi & Fc & Fm & _ & _).
  cbv zeta in Fi, Fc, Fm. fold cat in E.
  assert (Ei : Main.income d'
               = (if (cat =? "income")%string
                  then Main.income d + Main.amount_of float_of_string e
                  else Main.income d))
    by (rewrite <- Fi, E; reflexivity).
  assert (Ec : Main.inv_80c d'
               = (if (cat =? "80c")%string
                  then Main.inv_80c d + Main.amount_of float_of_string e
                  else Main.inv_80c d))
    by (rewrite <- Fc, E; reflexivity).
  assert (Em : Main.med_80d d'
               = (if (cat =? "80d")%string
                  then Main.med_80d d + Main.amount_of float_of_string e
                  else Main.med_80d d))
    by (rewrite <- Fm, E; reflexivity).
  clear E Fi Fc Fm. unfold Main.tax_new, Main.tax_old.
  rewrite Ei, Ec, Em. clear Ei Ec Em.
  split; [| split].
  - intros ->. simpl String.eqb. cbv iota.
    split; apply calculate_tax_le_income; lra.
  - intros [-> | ->]; simpl String.eqb; cbv iota;
      (split; [reflexivity |]);
      apply calculate_tax_antitone; (lia || lra).
  - intros H1 H2 H3. apply String.eqb_neq in H1, H2, H3.
    rewrite H1, H2, H3. split; reflexivity.
Qed.

End ManualEntriesFacts.

Lemma profile_taxes (d : Main.ai_data) :
  current_tax (Main.profile d) = Main.tax_new d /\
  other_tax (Main.profile d) = Main.tax_old d /\
  other_regime (Main.profile d) = "old"%string.
Proof.
  unfold current_tax, other_tax, other_regime, Main.tax_new, Main.tax_old,
    Main.profile, Main.income, Main.inv_80c, Main.med_80d.
  cbn [Data.get Data.regime Data.age Data.total_income Data.investments_80c
       Data.medical_80d].
  simpl String.eqb. cbv iota.
  split; [reflexivity |]. split; reflexivity.
Qed.

(** X22.  The report never contradicts itself: the advisor is asked about a
    profile without regime and age, so it suggests switching exactly when
    the recommendation line names the Old Regime with a positive saving,
    and its switch entry then names the old regime with that same saving.
    The recommendation line is always the first entry. *)
Theorem report_coherent (d : Main.ai_data) (r : string) (v : Z) :
  (In (Main.Advice (SwitchRegime r v)) (Main.ca_suggestions d)
   <-> Main.rec d = "Old Regime"%string /\ (0 < Main.diff d)%Z
       /\ r = "old"%string /\ v = Main.diff d) /\
  hd_error (Main.ca_suggestions d)
  = Some (Main.Recommendation (Main.rec d) (Main.diff d)) /\
  (2 <= List.length (Main.ca_suggestions d))%nat.
Proof.
  destruct (profile_taxes d) as (Hc & Ho & Hr).
  split; [| split; [reflexivity |]].
  - unfold Main.ca_suggestions. simpl In.
    assert (Hin : In (Main.Advice (SwitchRegime r v))
                     (map Main.Advice (suggest_savings (Main.profile d)))
                  <-> In (SwitchRegime r v) (suggest_savings (Main.profile d))).
    { rewrite in_map_iff. split.
      - intros (a & Ha & Hi). injection Ha as ->. exact Hi.
      - intros Hi. exists (SwitchRegime r v). auto. }
    rewrite Hin.
    rewrite (proj1 (switch_suggestion_iff (Main.profile d) r v)).
    rewrite Hc, Ho, Hr. unfold Main.rec, Main.diff.
    destruct (Z.ltb_spec (Main.tax_new d) (Main.tax_old d)).
    + split.
      * intros [H0 | (H1 & _)]; [discriminate | lia].
      * intros (H1 & _). discriminate.
    + split.
      * intros [H0 | (H1 & -> & ->)]; [discriminate |].
        repeat split; lia.
      * intros (_ & H1 & -> & ->). right. repeat split; lia.
  - unfold Main.ca_suggestions. simpl List.length. rewrite length_map.
    pose proof (suggest_savings_nonempty (Main.profile d)). lia.
Qed.

(** X23.  A tie goes to the Old Regime: with total income up to 550,000 and
    non-negative deduction totals both estimates are 0, the recommendation
    line names the Old Regime with a saving of 0, and the advisor adds the
    fallback entry alone. *)
Theorem report_low_income (d : Main.ai_data) :
  Main.income d <= 550000 -> 0 <= Main.inv_80c d -> 0 <= Main.med_80d d ->
  Main.tax_new d = 0%Z /\ Main.tax_old d = 0%Z /\
  Main.ca_suggestions d
  = [Main.Recommendation "Old Regime" 0; Main.Advice AlreadyOptimized].
Proof.
  intros Hi Hc Hm.
  assert (Hn : Main.tax_new d = 0%Z).
  { unfold Main.tax_new. apply new_regime_zero_tax. lra. }
  assert (Ho : Main.tax_old d = 0%Z).
  { unfold Main.tax_old. apply old_regime_zero_tax.
    unfold old_taxable_income.
    pose proof (total_deductions_at_least 30 (Main.inv_80c d)
                  (Main.med_80d d) 0 0 0) as Hd.
    match goal with |- Py.max 0 ?x <= _ =>
      destruct (max_spec 0 x) as [[? E3] | [? E3]]; rewrite E3
    end; lra. }
  split; [exact Hn |]. split; [exact Ho |].
  unfold Main.ca_suggestions, Main.rec, Main.diff. rewrite Hn, Ho. simpl.
  assert (Hs : suggest_savings (Main.profile d) = [AlreadyOptimized]).
  { apply new_regime_no_advice; [reflexivity |].
    change (Data.get (Data.total_income (Main.profile d)) 0)
      with (Main.income d). lra. }
  rewrite Hs. reflexivity.
Qed.


Lemma manual_entries_result_witness :
  let l :=
    [Main.Dict (Some (Logic.VStr "Bonus")) (Some (Logic.VNum 90000))
       (Some (Logic.VStr "income"));
     Main.Dict (Some (Logic.VStr "PPF")) (Some (Logic.VNum 50000))
       (Some (Logic.VStr "80c"));
     Main.Dict None (Some (Logic.VNum 700)) (Some (Logic.VStr "Income"))] in
  let d' :=
    Main.mk (Some 90000) (Some 50000) (Some 0) (Some 50000)
      (Some [Main.mk_txn None 700 "Debit" "Income" true;
             Main.mk_txn (Some (Logic.VStr "PPF")) 50000 "Debit" "80c" true;
             Main.mk_txn (Some (Logic.VStr "Bonus")) 90000 "Credit" "income"
               true]) in
  Main.manual_entries (fun _ => None) Main.base l = Some d' /\
  Main.income d' = Main.add_amounts (fun _ => None) ["income"%string] 0 l /\
  Main.inv_80c d' = Main.add_amounts (fun _ => None) ["80c"%string] 0 l /\
  Data.get (Main.expenses d') 0
  = Main.add_amounts (fun _ => None) ["80c"; "80d"; "expense"]%string 0 l.
Proof.
  intros l d'.
  assert (H : Main.manual_entries (fun _ => None) Main.base l = Some d')
    by (vm_compute; reflexivity).
  split; [exact H |].
  destruct (manual_entries_result (fun _ => None) l Main.base d' H)
    as (_ & Hi & Hc & _ & He).
  split; [exact Hi |]. split; [exact Hc | exact He].
Defined.

Lemma manual_entry_tax_effect_witness :
  let d := Main.mk (Some 1200000) (Some 0) (Some 0) (Some 0) (Some []) in
  let e := Main.Dict (Some (Logic.VStr "PPF")) (Some (Logic.VNum 50000))
             (Some (Logic.VStr "80c")) in
  let d' :=
    Main.mk (Some 1200000) (Some 50000) (Some 0) (Some 50000)
      (Some [Main.mk_txn (Some (Logic.VStr "PPF")) 50000 "Debit" "80c" true])
  in
  Main.tax_new d' = Main.tax_new d /\ (Main.tax_old d' <= Main.tax_old d)%Z.
Proof.
  intros d e d'.
  assert (H : Main.manual_entry (fun _ => None) d e = Some d')
    by (vm_compute; reflexivity).
  assert (Ha : 0 <= Main.amount_of (fun _ => None) e)
    by (vm_compute; discriminate).
  pose proof (manual_entry_tax_effect (fun _ => None) d d' e H Ha) as K.
  cbv zeta in K. destruct K as (_ & K & _).
  apply K. left. reflexivity.
Defined.

Lemma report_low_income_witness :
  Main.ca_suggestions (Main.mk (Some 550000) (Some 0) (Some 0) (Some 0) None)
  = [Main.Recommendation "Old Regime" 0; Main.Advice AlreadyOptimized].
Proof.
  apply report_low_income; vm_compute; discriminate.
Defined.

(** ** The two regimes compared, and the surcharge threshold *)

Lemma new_base_le_old_base (e t : Q) :
  0 <= e -> e <= 500000 ->
  new_rebate t (new_slab_tax t) <= old_rebate t (old_slab_tax e t).
Proof.
  intros He0 He.
  unfold new_rebate, new_slab_tax, old_rebate, old_slab_tax, Py.min.
  py_cases.
Qed.

Lemma surcharge_rate_new_le (regime : string) (t1 t2 : Q) :
  t1 <= t2 -> surcharge_rate "new" t1 <= surcharge_rate regime t2.
Proof.
  intros H. unfold surcharge_rate. simpl String.eqb.
  destruct (regime =? "new")%string; simpl orb; py_cases.
Qed.

(** X9.  When the old-regime deductions (the standard 50,000 included) come to
    no more than the 75,000 the new regime grants, the new regime is never
    the costlier one, at any income and age. *)
Theorem new_regime_cheaper_without_deductions
    (g : Q) (age : Z) (c d h n s : Q) :
  total_deductions age c d h n s <= 75000 ->
  (calculate_tax g age c d h n s "new"
   <= calculate_tax g age c d h n s "old")%Z.
Proof.
  intros Hd. rewrite !calculate_tax_eq. apply round_le.
  unfold base_tax_and_income; simpl String.eqb; cbv iota.
  unfold new_regime, old_regime, final_amount; simpl fst; simpl snd.
  assert (Ht : new_taxable_income g <= old_taxable_income g age c d h n s).
  { unfold new_taxable_income, old_taxable_income.
    apply max_le_compat. lra. }
  destruct (basic_exemption_range age) as [He0 He].
  apply tax_with_surcharge_and_cess_le.
  - apply new_rebate_nonneg, new_slab_tax_nonneg.
  - apply Qle_trans
      with (new_rebate (old_taxable_income g age c d h n s)
              (new_slab_tax (old_taxable_income g age c d h n s))).
    + apply new_rebate_le;
        [exact Ht | apply new_slab_tax_nonneg | now apply new_slab_tax_le].
    + now apply new_base_le_old_base.
  - apply surcharge_rate_nonneg.
  - now apply surcharge_rate_new_le.
Qed.

Lemma new_regime_cheaper_without_deductions_witness :
  (calculate_tax 1500000 30 0 0 0 0 0 "new"
   <= calculate_tax 1500000 30 0 0 0 0 0 "old")%Z.
Proof.
  apply new_regime_cheaper_without_deductions. vm_compute. discriminate.
Defined.

(** X10.  No relief is applied to the surcharge: as soon as taxable income
    passes 5,000,000 the tax is at least 1,235,520 under the new regime,
    against 1,123,200 at exactly 5,000,000. *)
Theorem surcharge_cliff_new_regime (g : Q) (age : Z) (c d h n s : Q) :
  calculate_tax 5075000 age c d h n s "new" = 1123200%Z /\
  (5075000 < g ->
   (1235520 <= calculate_tax g age c d h n s "new")%Z).
Proof.
  split; [reflexivity |].
  intros Hg. rewrite calculate_tax_eq.
  unfold base_tax_and_income; simpl String.eqb; cbv iota.
  unfold new_regime, new_taxable_income.
  assert (Ht : 5000000 < Py.max 0 (g - 75000)).
  { pose proof (max_ge_r 0 (g - 75000)). lra. }
  revert Ht. generalize (Py.max 0 (g - 75000)). intros t Ht.
  change 1235520%Z with (Py.round 1235520). apply round_le.
  amount_cases. unfold new_rebate, new_slab_tax, Py.min. py_cases.
Qed.

Lemma surcharge_cliff_new_regime_witness :
  (1235520 <= calculate_tax 5075001 30 0 0 0 0 0 "new")%Z.
Proof.
  apply (surcharge_cliff_new_regime 5075001 30 0 0 0 0 0).
  vm_compute. reflexivity.
Defined.
